(** * A shallow embedding of the demo web service (main.go)

    The service exposes a landing page, an application-info endpoint and
    liveness/readiness probes, each wrapped in a security-header middleware
    and a request logger.  The handlers are embedded as functions that pass
    the response writer and the process state explicitly. *)

From Stdlib Require Import ZArith String Ascii List Lia Bool DecimalString.
From stdpp Require Import base option list strings gmap.

Local Open Scope Z_scope.

(** ** Strings and byte counts *)

(** The double-quote byte, used to build the JSON literals of the source. *)
Definition dquote : ascii := "034"%char.

Definition quoted (s : string) : string :=
  String dquote (s +:+ String dquote EmptyString).

(** [len(b)] as a Go [int]. *)
Definition len (b : string) : Z := Z.of_nat (String.length b).

(** Go's [int] is 64 bits wide on the platforms the service is built for;
    [int_wrap] is the wrap-around of its addition. *)
Definition int_wrap (z : Z) : Z := (z + 2 ^ 63) mod 2 ^ 64 - 2 ^ 63.

Definition int_range (z : Z) : Prop := - 2 ^ 63 <= z < 2 ^ 63.

(** ** HTTP data (net/http) *)

Definition http_StatusOK : Z := 200.
Definition http_StatusNotFound : Z := 404.
Definition http_StatusServiceUnavailable : Z := 503.

(** The parts of [*http.Request] that the program reads. *)
Record Request := mkRequest {
  Method : string;
  URL_Path : string;
  RemoteAddr : string
}.

(** [http.Header]: a map from (canonical) header names to value lists.  All
    names the program uses are written in canonical form already. *)
Abbreviation Header := (gmap string (list string)).

Definition Header_Set (k v : string) (h : Header) : Header := <[k := [v]]> h.

Definition Header_Get (k : string) (h : Header) : string :=
  match h !! k with
  | Some (v :: _) => v
  | _ => EmptyString
  end.

Definition Header_Del (k : string) (h : Header) : Header := delete k h.

Definition has_key (k : string) (h : Header) : bool :=
  match h !! k with Some _ => true | None => false end.

Arguments Header_Set : simpl never.
Arguments Header_Get : simpl never.
Arguments Header_Del : simpl never.
Arguments has_key : simpl never.

(** The [http.ResponseWriter] interface.  [rw_Header] reads the live header
    map and [rw_setHeader] stores it back (Go hands out the map itself and
    the caller mutates it); [rw_Write] returns the byte count [n] and
    whether the error is non-nil. *)
Class http_ResponseWriter (W : Type) := {
  rw_Header : W -> Header;
  rw_setHeader : Header -> W -> W;
  rw_WriteHeader : Z -> W -> W;
  rw_Write : string -> W -> W * (Z * bool)
}.

(** [w.Header().Set(k, v)] *)
Definition set_header {W} `{!http_ResponseWriter W} (k v : string) (w : W) : W :=
  rw_setHeader (Header_Set k v (rw_Header w)) w.

(** [w.Header().Del(k)] *)
Definition del_header {W} `{!http_ResponseWriter W} (k : string) (w : W) : W :=
  rw_setHeader (Header_Del k (rw_Header w)) w.

(** ** Process state *)

(** [time.Duration] counts nanoseconds in an [int64]; instants are
    nanoseconds on the process clock. *)
Definition minDuration : Z := - 2 ^ 63.
Definition maxDuration : Z := 2 ^ 63 - 1.
Definition time_Second : Z := 1000000000.

(** [t.Sub(u)]: the difference, saturated to the range of a Duration. *)
Definition time_Sub (t u : Z) : Z :=
  let d := t - u in
  if d <? minDuration then minDuration
  else if maxDuration <? d then maxDuration
  else d.

(** [d.Truncate(m)]: rounding toward zero to a multiple of [m]. *)
Definition Duration_Truncate (d m : Z) : Z :=
  if m <=? 0 then d else d - Z.rem d m.

(** [d.Milliseconds()] *)
Definition Duration_Milliseconds (d : Z) : Z := Z.quot d 1000000.

(** The package-level variables of main.go. *)
Record Globals := mkGlobals {
  indexHTML : string;
  startTime : Z;
  version : string;
  env : string;
  buildTime : string;
  commit : string;
  readyAfter : Z
}.

(** Structured log records (log/slog): a message and its attributes in the
    order they were given. *)
Inductive slog_Value :=
| slog_String (s : string)
| slog_Int (z : Z).

Record slog_Record := mkRecord {
  Message : string;
  Attrs : list (string * slog_Value)
}.

(** The state a request runs in: the package variables, the host name the
    operating system reports, the clock and the default logger's output.
    [clock i] is the reading of the [i]-th call of [time.Now]; [ticks] counts
    the calls made so far. *)
Record World := mkWorld {
  globals : Globals;
  hostname : string;
  clock : nat -> Z;
  ticks : nat;
  slog_Default : list slog_Record
}.

Definition time_Now (σ : World) : Z * World :=
  (clock σ (ticks σ),
   mkWorld (globals σ) (hostname σ) (clock σ) (S (ticks σ)) (slog_Default σ)).

(** [time.Since(t)] is [time.Now().Sub(t)]. *)
Definition time_Since (t : Z) (σ : World) : Z * World :=
  let '(now, σ') := time_Now σ in (time_Sub now t, σ').

(** [slog.Default().Info(msg, args...)] *)
Definition slog_Info (msg : string) (args : list (string * slog_Value))
    (σ : World) : World :=
  mkWorld (globals σ) (hostname σ) (clock σ) (ticks σ)
          (slog_Default σ ++ [mkRecord msg args]).

(** ** Handlers *)

(** A handler either returns or panics; both leave a writer and a world. *)
Inductive result (A : Type) :=
| Done (a : A)
| Panic (a : A).
Arguments Done {A} a.
Arguments Panic {A} a.

(** [http.Handler]: it is given the writer behind the interface, so it is
    polymorphic in the writer's type.  Handlers read the request and, as
    net/http asks of them, do not modify it. *)
Definition http_Handler : Type :=
  forall (W : Type), http_ResponseWriter W ->
    Request -> W -> World -> result (W * World).

Definition Middleware : Type := http_Handler -> http_Handler.

(** What the program takes from outside main.go. *)
Class Collaborators := {
  (** [http.FileServer(http.FS(sub))] over the embedded static tree *)
  staticHandler : http_Handler;
  (** [promhttp.Handler()] *)
  promhttp_Handler : http_Handler;
  (** the string encoder of encoding/json *)
  json_string : string -> string;
  (** [time.Duration.String] *)
  Duration_String : Z -> string;
  (** [http.DetectContentType] *)
  http_DetectContentType : string -> string
}.

(** [fmt.Fprint(w, body)] for a string operand: one [Write] of its bytes. *)
Definition fmt_Fprint {W} `{!http_ResponseWriter W} (w : W) (body : string)
    : W * (Z * bool) :=
  rw_Write body w.

(** [io.Copy(w, bytes.NewReader(b))]: the reader writes what it holds in one
    [Write], and writes nothing when it is empty. *)
Definition io_Copy_bytes {W} `{!http_ResponseWriter W} (w : W) (b : string)
    : W * (Z * bool) :=
  if String.eqb b EmptyString then (w, (0, false)) else rw_Write b w.

(** [http.Error(w, msg, code)] and [http.NotFound(w, r)] of net/http. *)
Definition http_Error {W} `{!http_ResponseWriter W} (w : W) (msg : string)
    (code : Z) : W :=
  let w := del_header "Content-Length" w in
  let w := set_header "Content-Type" "text/plain; charset=utf-8" w in
  let w := set_header "X-Content-Type-Options" "nosniff" w in
  let w := rw_WriteHeader code w in
  fst (rw_Write (msg +:+ String "010"%char EmptyString) w).

Definition http_NotFound {W} `{!http_ResponseWriter W} (w : W) : W :=
  http_Error w "404 page not found" http_StatusNotFound.

Definition writeJSON {W} `{!http_ResponseWriter W} (w : W) (status : Z)
    (body : string) : W :=
  let w := set_header "Content-Type" "application/json" w in
  let w := rw_WriteHeader status w in
  fst (fmt_Fprint w body).

(** The probe bodies, [{"status":"..."}] in the source. *)
Definition status_body (s : string) : string :=
  "{" +:+ quoted "status" +:+ ":" +:+ quoted s +:+ "}".

Definition homeHandler : http_Handler := fun W _ r w σ =>
  if negb (String.eqb (URL_Path r) "/") then Done (http_NotFound w, σ)
  else
    let w := set_header "Content-Type" "text/html; charset=utf-8" w in
    Done (fst (io_Copy_bytes w (indexHTML (globals σ))), σ).

Definition healthHandler : http_Handler := fun W _ r w σ =>
  Done (writeJSON w http_StatusOK (status_body "healthy"), σ).

Definition liveHandler : http_Handler := fun W _ r w σ =>
  Done (writeJSON w http_StatusOK (status_body "alive"), σ).

Definition readyHandler : http_Handler := fun W _ r w σ =>
  let '(elapsed, σ) := time_Since (startTime (globals σ)) σ in
  if elapsed <? readyAfter (globals σ)
  then Done (writeJSON w http_StatusServiceUnavailable (status_body "warming"), σ)
  else Done (writeJSON w http_StatusOK (status_body "ready"), σ).

(** ** The application-info endpoints *)

Record AppInfo := mkAppInfo {
  Name : string;
  Version : string;
  Commit : string;
  Environment : string;
  BuildTime : string;
  Uptime : string;
  Hostname : string
}.

(** The members encoding/json emits for an [AppInfo]: one per exported
    field, under the name of its [json] tag, in declaration order.  No tag
    carries [omitempty]. *)
Definition AppInfo_members (i : AppInfo) : list (string * string) :=
  [ ("name", Name i); ("version", Version i); ("commit", Commit i);
    ("environment", Environment i); ("buildTime", BuildTime i);
    ("uptime", Uptime i); ("hostname", Hostname i) ].

Definition json_member `{!Collaborators} (m : string * string) : string :=
  quoted (fst m) +:+ ":" +:+ json_string (snd m).

Fixpoint join_comma (l : list string) : string :=
  match l with
  | [] => EmptyString
  | [x] => x
  | x :: rest => x +:+ "," +:+ join_comma rest
  end.

Definition json_object `{!Collaborators} (ms : list (string * string)) : string :=
  "{" +:+ join_comma (map json_member ms) +:+ "}".

(** [json.NewEncoder(w).Encode(info)]: the object, a newline, one [Write]. *)
Definition json_Encode `{!Collaborators} {W} `{!http_ResponseWriter W}
    (w : W) (info : AppInfo) : W * (Z * bool) :=
  rw_Write (json_object (AppInfo_members info) +:+ String "010"%char EmptyString) w.

(** [time.Since(startTime).Truncate(time.Second).String()] *)
Definition uptime_string `{!Collaborators} (σ : World) : string * World :=
  let '(d, σ) := time_Since (startTime (globals σ)) σ in
  (Duration_String (Duration_Truncate d time_Second), σ).

Definition versionHandler `{!Collaborators} : http_Handler := fun W _ r w σ =>
  let host := hostname σ in
  let '(up, σ) := uptime_string σ in
  let info := {| Name := "Harness Demo App";
                 Version := version (globals σ);
                 Commit := commit (globals σ);
                 Environment := env (globals σ);
                 BuildTime := buildTime (globals σ);
                 Uptime := up;
                 Hostname := host |} in
  let w := set_header "Content-Type" "application/json" w in
  Done (fst (json_Encode w info), σ).

(** [infoHandler] leaves [Commit] at its zero value, the empty string. *)
Definition infoHandler `{!Collaborators} : http_Handler := fun W _ r w σ =>
  let host := hostname σ in
  let '(up, σ) := uptime_string σ in
  let info := {| Name := "Harness Demo App";
                 Version := version (globals σ);
                 Commit := EmptyString;
                 Environment := env (globals σ);
                 BuildTime := buildTime (globals σ);
                 Uptime := up;
                 Hostname := host |} in
  let w := set_header "Content-Type" "application/json" w in
  Done (fst (json_Encode w info), σ).

(** ** Middleware *)

Definition CSP : string :=
  "default-src 'self'; img-src 'self' data:; style-src 'self' 'unsafe-inline'; script-src 'self'".

Definition withSecurityHeaders : Middleware := fun next W _ r w σ =>
  let w := set_header "X-Content-Type-Options" "nosniff" w in
  let w := set_header "X-Frame-Options" "DENY" w in
  let w := set_header "Referrer-Policy" "no-referrer" w in
  let w := set_header "Content-Security-Policy" CSP w in
  next W _ r w σ.

(** [chain]: the loop runs [i] from [len(mws) - 1] down to [0]. *)
Fixpoint chain_loop {H : Type} (mws : list (H -> H)) (i : nat) (h : H) : H :=
  match i with
  | O => h
  | S j =>
      match mws !! j with
      | Some mw => chain_loop mws j (mw h)
      | None => h
      end
  end.

Definition chain {H : Type} (h : H) (mws : list (H -> H)) : H :=
  chain_loop mws (length mws) h.

(** A middleware that only marks, in the log, when it is entered and when
    the handler it wraps has returned; it makes the nesting order of a chain
    visible. *)
Definition tracing (tag : string) : Middleware := fun next W _ r w σ =>
  match next W _ r w (slog_Info ("enter " +:+ tag) [] σ) with
  | Done (w, σ) => Done (w, slog_Info ("leave " +:+ tag) [] σ)
  | Panic p => Panic p
  end.

(** [rwCapture] embeds the writer it wraps and adds two counters. *)
Record rwCapture (W : Type) := mkCapture {
  ResponseWriter : W;
  status : Z;
  size : Z
}.
Arguments mkCapture {W} _ _ _.
Arguments ResponseWriter {W} _.
Arguments status {W} _.
Arguments size {W} _.

Definition rwCapture_WriteHeader {W} `{!http_ResponseWriter W} (code : Z)
    (w : rwCapture W) : rwCapture W :=
  mkCapture (rw_WriteHeader code (ResponseWriter w)) code (size w).

Definition rwCapture_Write {W} `{!http_ResponseWriter W} (b : string)
    (w : rwCapture W) : rwCapture W * (Z * bool) :=
  let st := if status w =? 0 then http_StatusOK else status w in
  let '(inner, (n, err)) := rw_Write b (ResponseWriter w) in
  (mkCapture inner st (int_wrap (size w + n)), (n, err)).

(** [Header] is promoted from the embedded writer. *)
#[export] Instance rwCapture_ResponseWriter {W} `{!http_ResponseWriter W}
    : http_ResponseWriter (rwCapture W) := {
  rw_Header w := rw_Header (ResponseWriter w);
  rw_setHeader h w := mkCapture (rw_setHeader h (ResponseWriter w)) (status w) (size w);
  rw_WriteHeader := rwCapture_WriteHeader;
  rw_Write := rwCapture_Write
}.

Definition request_record (r : Request) (st sz ms : Z) : slog_Record :=
  mkRecord "request"
    [ ("method", slog_String (Method r));
      ("path", slog_String (URL_Path r));
      ("status", slog_Int st);
      ("bytes", slog_Int sz);
      ("remote", slog_String (RemoteAddr r));
      ("dur_ms", slog_Int ms) ].

Definition withLogging : Middleware := fun next W _ r w σ =>
  let '(start, σ) := time_Now σ in
  let cw := mkCapture w 0 0 in
  match next (rwCapture W) _ r cw σ with
  | Done (cw, σ) =>
      let '(d, σ) := time_Since start σ in
      Done (ResponseWriter cw,
            slog_Info "request"
              (Attrs (request_record r (status cw) (size cw) (Duration_Milliseconds d))) σ)
  | Panic (cw, σ) => Panic (ResponseWriter cw, σ)
  end.

(** ** Routing *)

(** [strings.TrimPrefix(s, prefix)] *)
Definition strings_TrimPrefix (s prefix : string) : string :=
  if String.prefix prefix s
  then String.substring (String.length prefix)
         (String.length s - String.length prefix) s
  else s.

(** [http.StripPrefix(prefix, h)] *)
Definition http_StripPrefix (prefix : string) (h : http_Handler) : http_Handler :=
  fun W _ r w σ =>
    if String.eqb prefix EmptyString then h W _ r w σ
    else
      let p := strings_TrimPrefix (URL_Path r) prefix in
      if (String.length p <? String.length (URL_Path r))%nat
      then h W _ (mkRequest (Method r) p (RemoteAddr r)) w σ
      else Done (http_NotFound w, σ).

(** The stack every handler of main.go is wrapped in. *)
Definition wrapped (h : http_Handler) : http_Handler :=
  chain h [withSecurityHeaders; withLogging].

(** The registrations of [main], in the order of the [mux.Handle] calls. *)
Definition main_routes `{!Collaborators} : list (string * http_Handler) :=
  [ ("/static/", http_StripPrefix "/static/" staticHandler);
    ("/", wrapped homeHandler);
    ("/api/info", wrapped infoHandler);
    ("/version", wrapped versionHandler);
    ("/health", wrapped healthHandler);
    ("/live", wrapped liveHandler);
    ("/ready", wrapped readyHandler);
    ("/healthz", wrapped healthHandler);
    ("/livez", wrapped liveHandler);
    ("/readyz", wrapped readyHandler);
    ("/metrics", promhttp_Handler) ].

(** [http.ServeMux] for paths in canonical form (the mux redirects any other
    path to its canonical form first): a pattern that ends in a slash matches
    every path it is a prefix of, any other pattern matches the path equal to
    it, and the longest matching pattern wins.  A path that names a
    registered subtree without its final slash, and is not registered
    itself, is redirected to the subtree. *)
Fixpoint ends_with_slash (s : string) : bool :=
  match s with
  | EmptyString => false
  | String c EmptyString => Ascii.eqb c "/"
  | String _ rest => ends_with_slash rest
  end.

Definition pattern_matches (pat path : string) : bool :=
  if ends_with_slash pat then String.prefix pat path else String.eqb pat path.

Definition registered (routes : list (string * http_Handler)) (pat : string) : bool :=
  existsb (fun e => String.eqb (fst e) pat) routes.

Definition better (pat : string) (best : option (string * http_Handler)) : bool :=
  match best with
  | None => true
  | Some e => (String.length (fst e) <? String.length pat)%nat
  end.

Fixpoint ServeMux_best (routes : list (string * http_Handler)) (path : string)
    (best : option (string * http_Handler)) : option (string * http_Handler) :=
  match routes with
  | [] => best
  | e :: rest =>
      ServeMux_best rest path
        (if pattern_matches (fst e) path && better (fst e) best then Some e else best)
  end.

Inductive mux_decision :=
| Serve (pat : string) (h : http_Handler)
| RedirectSlash (target : string)
| NoMatch.

Definition ServeMux_Handler (routes : list (string * http_Handler))
    (path : string) : mux_decision :=
  if negb (registered routes path) && registered routes (path +:+ "/")
  then RedirectSlash (path +:+ "/")
  else
    match ServeMux_best routes path None with
    | Some e => Serve (fst e) (snd e)
    | None => NoMatch
    end.

(** ** The response as a client receives it (httptest.ResponseRecorder)

    The first [WriteHeader] fixes the status code and the headers; a [Write]
    before any [WriteHeader] fixes status 200, after sniffing a content type
    when none is set.  (The recorder's panic on a status code outside
    100..999 is not modelled: writers are total here.) *)
Record ResponseRecorder := mkRecorder {
  Code : Z;
  HeaderMap : Header;
  Body : string;
  wroteHeader : bool;
  snapHeader : Header
}.

Definition httptest_NewRecorder : ResponseRecorder :=
  mkRecorder 200 ∅ EmptyString false ∅.

Definition Recorder_WriteHeader (code : Z) (rw : ResponseRecorder) : ResponseRecorder :=
  if wroteHeader rw then rw
  else mkRecorder code (HeaderMap rw) (Body rw) true (HeaderMap rw).

Definition Recorder_writeHeader `{!Collaborators} (b : string)
    (rw : ResponseRecorder) : ResponseRecorder :=
  if wroteHeader rw then rw
  else
    let m := HeaderMap rw in
    let hasType := has_key "Content-Type" m in
    let hasTE := negb (String.eqb (Header_Get "Transfer-Encoding" m) EmptyString) in
    let m := if negb hasType && negb hasTE
             then Header_Set "Content-Type" (http_DetectContentType b) m
             else m in
    Recorder_WriteHeader 200 (mkRecorder (Code rw) m (Body rw) false (snapHeader rw)).

Definition Recorder_Write `{!Collaborators} (b : string) (rw : ResponseRecorder)
    : ResponseRecorder * (Z * bool) :=
  let rw := Recorder_writeHeader b rw in
  (mkRecorder (Code rw) (HeaderMap rw) (Body rw +:+ b) (wroteHeader rw) (snapHeader rw),
   (len b, false)).

#[export] Instance Recorder_ResponseWriter `{!Collaborators}
    : http_ResponseWriter ResponseRecorder := {
  rw_Header := HeaderMap;
  rw_setHeader h rw := mkRecorder (Code rw) h (Body rw) (wroteHeader rw) (snapHeader rw);
  rw_WriteHeader := Recorder_WriteHeader;
  rw_Write := Recorder_Write
}.

(** The headers of [rw.Result()]: those in place when the status was fixed. *)
Definition Result_Header (rw : ResponseRecorder) : Header :=
  if wroteHeader rw then snapHeader rw else HeaderMap rw.

(** One request against a handler, and against the mux of [main].  The mux's
    own redirect is outside the model: [ServeMux_ServeHTTP] gives [None]. *)
Definition serve_handler `{!Collaborators} (h : http_Handler) (r : Request)
    (σ : World) : result (ResponseRecorder * World) :=
  h ResponseRecorder _ r httptest_NewRecorder σ.

Definition ServeMux_ServeHTTP `{!Collaborators} (r : Request) (σ : World)
    : option (result (ResponseRecorder * World)) :=
  match ServeMux_Handler main_routes (URL_Path r) with
  | Serve _ h => Some (serve_handler h r σ)
  | NoMatch => Some (Done (http_NotFound httptest_NewRecorder, σ))
  | RedirectSlash _ => None
  end.

Definition response (o : result (ResponseRecorder * World))
    : ResponseRecorder :=
  match o with Done p | Panic p => fst p end.

(** The header map of a fresh response once [withSecurityHeaders] has run. *)
Definition policy_headers : Header :=
  Header_Set "Content-Security-Policy" CSP
    (Header_Set "Referrer-Policy" "no-referrer"
       (Header_Set "X-Frame-Options" "DENY"
          (Header_Set "X-Content-Type-Options" "nosniff" ∅))).

(** The headers of the JSON responses. *)
Definition json_headers : Header :=
  Header_Set "Content-Type" "application/json" policy_headers.

(** The headers of the landing page and of [http.NotFound]'s answer. *)
Definition html_headers : Header :=
  Header_Set "Content-Type" "text/html; charset=utf-8" policy_headers.

Definition notfound_headers : Header :=
  Header_Set "X-Content-Type-Options" "nosniff"
    (Header_Set "Content-Type" "text/plain; charset=utf-8"
       (Header_Del "Content-Length" policy_headers)).

(** Behind [withLogging] a handler makes the second clock reading of the
    request: the logger has taken its start time first. *)
Definition handler_now (σ : World) : Z := clock σ (S (ticks σ)).

(** The world a wrapped handler leaves when it read the clock [n] times
    itself and logged nothing: the logger's two readings and its record. *)
Definition logged (r : Request) (st sz : Z) (n : nat) (σ : World) : World :=
  mkWorld (globals σ) (hostname σ) (clock σ) (S (S (n + ticks σ)))
    (slog_Default σ ++
       [request_record r st sz
          (Duration_Milliseconds
             (time_Sub (clock σ (S (n + ticks σ))) (clock σ (ticks σ))))]).

Definition newline : string := String "010"%char EmptyString.

(** ** Call sequences on a writer *)

Inductive call :=
| CallHeaderSet (k v : string)
| CallWriteHeader (code : Z)
| CallWrite (b : string).

(** Runs the calls in order; the second component lists the byte counts the
    [Write] calls returned. *)
Fixpoint run_calls {W} `{!http_ResponseWriter W} (cs : list call) (w : W)
    : W * list Z :=
  match cs with
  | [] => (w, [])
  | CallHeaderSet k v :: cs => run_calls cs (set_header k v w)
  | CallWriteHeader code :: cs => run_calls cs (rw_WriteHeader code w)
  | CallWrite b :: cs =>
      let '(w, (n, _)) := rw_Write b w in
      let '(w, ns) := run_calls cs w in
      (w, n :: ns)
  end.


(** The wrapper [withLogging] builds: [&rwCapture{ResponseWriter: w}]. *)
Definition new_capture {W} (w : W) : rwCapture W := mkCapture w 0 0.

Definition is_write (c : call) : bool :=
  match c with CallWrite _ => true | _ => false end.

Definition is_write_header (c : call) : bool :=
  match c with CallWriteHeader _ => true | _ => false end.

(** The codes given to [WriteHeader], in call order. *)
Fixpoint explicit_codes (cs : list call) : list Z :=
  match cs with
  | [] => []
  | CallWriteHeader code :: cs => code :: explicit_codes cs
  | _ :: cs => explicit_codes cs
  end.

(** What the specification says of ResponseCapture: the status is the last
    explicitly set one, or the success code when there was a write and no
    status was ever set; the byte count is the sum of the bytes written. *)
Definition spec_status (cs : list call) : option Z :=
  match last (explicit_codes cs) with
  | Some code => Some code
  | None => if existsb is_write cs then Some http_StatusOK else None
  end.

Definition spec_bytes (ns : list Z) : Z := foldr Z.add 0 ns.

(** The four headers of the security policy. *)
Definition security_headers : list (string * string) :=
  [ ("X-Content-Type-Options", "nosniff");
    ("X-Frame-Options", "DENY");
    ("Referrer-Policy", "no-referrer");
    ("Content-Security-Policy", CSP) ].

Definition carries (h : Header) (kv : string * string) : Prop :=
  h !! fst kv = Some [snd kv].

Definition carries_security_headers (h : Header) : Prop :=
  Forall (carries h) security_headers.

(** A response that reports readiness. *)
Definition reports_ready (rw : ResponseRecorder) : Prop :=
  Code rw = 200 /\ Body rw = status_body "ready".

(** The patterns [main] registers through [chain]. *)
Definition wrapped_patterns : list string :=
  ["/"; "/api/info"; "/version"; "/health"; "/live"; "/ready";
   "/healthz"; "/livez"; "/readyz"].

(** [mentions_member k body]: the text [body] holds a member named [k],
    that is the quoted name followed by a colon. *)
Fixpoint contains (needle hay : string) : bool :=
  String.prefix needle hay ||
  match hay with
  | EmptyString => false
  | String _ rest => contains needle rest
  end.

Definition mentions_member (k body : string) : bool :=
  contains (quoted k +:+ ":") body.

(** ** Concrete writers and collaborators for running the model *)

(** A writer that accepts every call and keeps nothing. *)
#[export] Instance discard_writer : http_ResponseWriter unit := {
  rw_Header _ := ∅;
  rw_setHeader _ w := w;
  rw_WriteHeader _ w := w;
  rw_Write b w := (w, (len b, false))
}.

(** A writer over a pipe that takes at most four bytes per call; a longer
    slice is cut short and reported as an error (io.ErrShortWrite). *)
Record pipe := mkPipe { taken : string }.

Definition pipe_Write (b : string) (w : pipe) : pipe * (Z * bool) :=
  let b' := String.substring 0 4 b in
  (mkPipe (taken w +:+ b'), (len b', (4 <? String.length b)%nat)).

#[export] Instance pipe_writer : http_ResponseWriter pipe := {
  rw_Header _ := ∅;
  rw_setHeader _ w := w;
  rw_WriteHeader _ w := w;
  rw_Write := pipe_Write
}.

Definition plain_handler (ctype body : string) : http_Handler := fun W _ r w σ =>
  let w := set_header "Content-Type" ctype w in
  let w := rw_WriteHeader http_StatusOK w in
  Done (fst (rw_Write body w), σ).

Definition decimal (z : Z) : string := NilZero.string_of_int (Z.to_int z).

(** [time.Duration.String] on whole seconds: [0s], [5s], [1m5s], [2h0m3s]. *)
Definition seconds_string (d : Z) : string :=
  let u := Z.abs d / time_Second in
  let h := u / 3600 in
  let m := (u / 60) mod 60 in
  let sec := u mod 60 in
  (if d <? 0 then "-" else EmptyString) +:+
  (if 0 <? h then decimal h +:+ "h" +:+ decimal m +:+ "m"
   else if 0 <? m then decimal m +:+ "m" else EmptyString) +:+
  decimal sec +:+ "s".

(** Stand-ins for the collaborators: a file server and a metrics exporter
    that answer in plain text, the JSON encoding of strings that need no
    escaping, and durations in whole seconds. *)
Definition demo_collaborators : Collaborators := {|
  staticHandler := plain_handler "text/javascript; charset=utf-8" "/* app.js */";
  promhttp_Handler := plain_handler "text/plain; version=0.0.4; charset=utf-8" "# metrics";
  json_string := quoted;
  Duration_String := seconds_string;
  http_DetectContentType := fun _ => "text/plain; charset=utf-8"
|}.

Definition demo_globals (start ready : Z) : Globals :=
  mkGlobals "<html>Harness Demo App</html>" start "1.0.0" "development"
            EmptyString "unknown" ready.

(** A clock that starts at [t0] and advances a microsecond per reading. *)
Definition demo_clock (t0 : Z) : nat -> Z := fun i => t0 + Z.of_nat i * 1000.

Definition demo_world (start ready t0 : Z) : World :=
  mkWorld (demo_globals start ready) "demo-host" (demo_clock t0) 0 [].

Definition get (path : string) : Request := mkRequest "GET" path "192.0.2.1:4711".

(** Worlds of the specification's scenarios.  The process started at instant
    0; the first request arrives at once with a threshold of ten seconds,
    the others after 5, 60 and 75 seconds with a threshold of two. *)
Definition warming_world : World := demo_world 0 (10 * time_Second) 0.
Definition ready_world : World := demo_world 0 (2 * time_Second) (5 * time_Second).
Definition later_world : World := demo_world 0 (2 * time_Second) (60 * time_Second).
Definition uptime_world : World := demo_world 0 (2 * time_Second) (75 * time_Second).

Definition pipe_calls : list call :=
  [CallWrite "hello, world"; CallWriteHeader 404; CallWrite "bye"].

(** A build whose embedded page is empty, and the calls [homeHandler] makes
    on its writer there. *)
Definition empty_page_world : World :=
  mkWorld (mkGlobals EmptyString 0 "1.0.0" "development" EmptyString "unknown"
             (2 * time_Second))
          "demo-host" (demo_clock (5 * time_Second)) 0 [].

Definition html_calls : list call :=
  [CallHeaderSet "Content-Type" "text/html; charset=utf-8"].

(** ** Start-up: the process environment and the package initialisers *)

(** [os.Getenv]: the value of the variable, the empty string when it is not
    set. *)
Definition os_Getenv (environ : gmap string string) (k : string) : string :=
  default EmptyString (environ !! k).

Definition getenv (environ : gmap string string) (k def : string) : string :=
  let v := os_Getenv environ k in
  if negb (String.eqb v EmptyString) then v else def.

(** The package variables as the initialisers of main.go leave them, for the
    embedded page [page] and the instant [now] of initialisation.  (Values
    the linker may put in place of [commit] are not modelled.) *)
Definition init_globals (environ : gmap string string) (page : string)
    (now : Z) : Globals :=
  {| indexHTML := page;
     startTime := now;
     version := getenv environ "APP_VERSION" "1.0.0";
     env := getenv environ "APP_ENV" "development";
     buildTime := os_Getenv environ "BUILD_TIME";
     commit := "unknown";
     readyAfter := 2 * time_Second |}.

(** ** Status events of a call sequence *)

(** The writer as [withSecurityHeaders] hands it to the next handler. *)
Definition with_policy {W} `{!http_ResponseWriter W} (w : W) : W :=
  set_header "Content-Security-Policy" CSP
    (set_header "Referrer-Policy" "no-referrer"
       (set_header "X-Frame-Options" "DENY"
          (set_header "X-Content-Type-Options" "nosniff" w))).

(** The first call that fixes a status on the wire: the code of a
    [WriteHeader], or 200 for a [Write]. *)
Fixpoint first_status (cs : list call) : option Z :=
  match cs with
  | [] => None
  | CallHeaderSet _ _ :: cs => first_status cs
  | CallWriteHeader code :: _ => Some code
  | CallWrite _ :: _ => Some http_StatusOK
  end.



(** ** Further inputs for running the model *)

(** A handler that writes part of an answer and then panics. *)
Definition panicking : http_Handler := fun W _ r w σ =>
  Panic (fst (rw_Write "partial" w), σ).

(** An environment with APP_ENV set and APP_VERSION set to nothing, and the
    world of a process initialised in it at instant 0, seen at instant [t]. *)
Definition demo_environ : gmap string string :=
  <["APP_ENV" := "staging"]> (<["APP_VERSION" := EmptyString]> ∅).

Definition fresh_world (t : Z) : World :=
  mkWorld (init_globals demo_environ "<html>Harness Demo App</html>" 0)
          "demo-host" (demo_clock t) 0 [].

Definition post (path : string) : Request :=
  mkRequest "POST" path "198.51.100.7:4040".


(** * Properties *)

(** ** Literals *)

(** The probe bodies are the bytes of the source's literals, here
    [{"status":"ready"}]. *)
Example status_body_ready_bytes :
  map nat_of_ascii (list_ascii_of_string (status_body "ready"))
  = [123; 34; 115; 116; 97; 116; 117; 115; 34; 58; 34; 114; 101; 97; 100; 121; 34; 125]%nat.
Proof. reflexivity. Qed.

(** ** Go integers *)

Lemma int_wrap_idem_add (a n : Z) : int_wrap (int_wrap a + n) = int_wrap (a + n).
Proof.
  unfold int_wrap.
  replace ((a + 2 ^ 63) mod 2 ^ 64 - 2 ^ 63 + n + 2 ^ 63)
    with ((a + 2 ^ 63) mod 2 ^ 64 + n) by lia.
  rewrite Zplus_mod_idemp_l. f_equal. f_equal. lia.
Qed.

Lemma int_wrap_range (z : Z) : int_range (int_wrap z).
Proof.
  unfold int_wrap, int_range.
  pose proof (Z.mod_pos_bound (z + 2 ^ 63) (2 ^ 64) ltac:(lia)). lia.
Qed.

Lemma int_wrap_small (z : Z) : int_range z -> int_wrap z = z.
Proof.
  unfold int_wrap, int_range. intros Hz.
  rewrite Z.mod_small; lia.
Qed.

(** ** chain *)

Lemma chain_loop_take {H : Type} (mws : list (H -> H)) (i : nat) (h : H) :
  (i <= length mws)%nat ->
  chain_loop mws i h = foldr (fun mw acc => mw acc) h (take i mws).
Proof.
  revert h. induction i as [|j IH]; intros h Hi; simpl.
  - done.
  - destruct (lookup_lt_is_Some_2 mws j ltac:(lia)) as [mw Hmw].
    rewrite Hmw, IH by lia.
    rewrite (take_S_r _ _ _ Hmw), foldr_app. done.
Qed.

Lemma chain_foldr {H : Type} (h : H) (mws : list (H -> H)) :
  chain h mws = foldr (fun mw acc => mw acc) h mws.
Proof.
  unfold chain. rewrite chain_loop_take by lia. by rewrite firstn_all.
Qed.

(** C3. The chain constructor nests its middleware in list order, the first
    one outermost: [chain T [A; B]] is the handler [A (B T)], the empty list
    leaves the terminal handler as it is, and each further middleware at the
    head of the list wraps the chain of the rest. *)
Theorem chain_order_preserving {H : Type} (T : H) :
  (forall A B : H -> H, chain T [A; B] = A (B T)) /\
  chain T [] = T /\
  (forall (A : H -> H) (mws : list (H -> H)), chain T (A :: mws) = A (chain T mws)).
Proof.
  split; [|split]; intros; by rewrite ?chain_foldr.
Qed.

(** The first middleware of the list is entered first and left last. *)
Lemma chain_first_is_outermost (T : http_Handler) (a b : string) {W : Type}
    `{!http_ResponseWriter W} (r : Request) (w w' : W) (σ σ' : World) :
  T W _ r w (slog_Info ("enter " +:+ b) [] (slog_Info ("enter " +:+ a) [] σ))
  = Done (w', σ') ->
  chain T [tracing a; tracing b] W _ r w σ
  = Done (w', slog_Info ("leave " +:+ a) [] (slog_Info ("leave " +:+ b) [] σ')).
Proof.
  intros HT. rewrite chain_foldr. cbn [foldr]. unfold tracing at 1 2.
  by rewrite HT.
Qed.

(** ** ResponseCapture *)

Section capture.
Context {W : Type} `{!http_ResponseWriter W}.

(** The wrapper passes every call on: the wrapped writer ends in the state
    the same calls would have put it in, and the byte counts are its own. *)
Lemma capture_passes_calls (cs : list call) (cw : rwCapture W) :
  run_calls cs (ResponseWriter cw)
  = (ResponseWriter (run_calls cs cw).1, (run_calls cs cw).2).
Proof.
  revert cw. induction cs as [|c cs IH]; intros cw; [done|].
  destruct c as [k v|code|b]; cbn [run_calls].
  - exact (IH (set_header k v cw)).
  - exact (IH (rw_WriteHeader code cw)).
  - simpl. unfold rwCapture_Write.
    destruct (rw_Write b (ResponseWriter cw)) as [inner [n err]].
    specialize (IH (mkCapture inner
      (if status cw =? 0 then http_StatusOK else status cw)
      (int_wrap (size cw + n)))).
    simpl in IH. rewrite IH.
    by destruct (run_calls (W:=rwCapture W) cs _).
Qed.

Lemma capture_size (cs : list call) (cw : rwCapture W) :
  int_wrap (size (run_calls cs cw).1)
  = int_wrap (size cw + spec_bytes (run_calls cs cw).2).
Proof.
  revert cw. induction cs as [|c cs IH]; intros cw.
  - simpl. f_equal. unfold spec_bytes. simpl. lia.
  - destruct c as [k v|code|b]; cbn [run_calls].
    + exact (IH (set_header k v cw)).
    + exact (IH (rw_WriteHeader code cw)).
    + simpl. unfold rwCapture_Write.
      destruct (rw_Write b (ResponseWriter cw)) as [inner [n err]].
      specialize (IH (mkCapture inner
        (if status cw =? 0 then http_StatusOK else status cw)
        (int_wrap (size cw + n)))).
      destruct (run_calls (W:=rwCapture W) cs _) as [cw' ns]. simpl in *.
      rewrite IH, int_wrap_idem_add. f_equal. unfold spec_bytes. simpl. lia.
Qed.

Lemma capture_size_range (cs : list call) (cw : rwCapture W) :
  int_range (size cw) -> int_range (size (run_calls cs cw).1).
Proof.
  revert cw. induction cs as [|c cs IH]; intros cw Hr; [done|].
  destruct c as [k v|code|b]; cbn [run_calls].
  - exact (IH (set_header k v cw) Hr).
  - exact (IH (rw_WriteHeader code cw) Hr).
  - simpl. unfold rwCapture_Write.
    destruct (rw_Write b (ResponseWriter cw)) as [inner [n err]].
    specialize (IH (mkCapture inner
      (if status cw =? 0 then http_StatusOK else status cw)
      (int_wrap (size cw + n))) (int_wrap_range _)).
    by destruct (run_calls (W:=rwCapture W) cs _).
Qed.

(** The status after a call sequence whose explicit codes are non-zero. *)
Lemma capture_status (cs : list call) (cw : rwCapture W) :
  Forall (fun code => code <> 0) (explicit_codes cs) ->
  status (run_calls cs cw).1
  = match last (explicit_codes cs) with
    | Some code => code
    | None =>
        if existsb is_write cs
        then (if status cw =? 0 then http_StatusOK else status cw)
        else status cw
    end.
Proof.
  revert cw. induction cs as [|c cs IH]; intros cw Hnz; [done|].
  destruct c as [k v|code|b]; cbn [run_calls explicit_codes existsb is_write orb] in *.
  - exact (IH (set_header k v cw) Hnz).
  - inversion Hnz as [|? ? Hcode Hrest]; subst.
    rewrite (IH (rw_WriteHeader code cw) Hrest), last_cons. simpl.
    destruct (last (explicit_codes cs)); [done|].
    destruct (code =? 0) eqn:E; [lia|]. by destruct (existsb is_write cs).
  - simpl. unfold rwCapture_Write.
    destruct (rw_Write b (ResponseWriter cw)) as [inner [n err]].
    specialize (IH (mkCapture inner
      (if status cw =? 0 then http_StatusOK else status cw)
      (int_wrap (size cw + n))) Hnz).
    destruct (run_calls (W:=rwCapture W) cs _) as [cw' ns]. simpl in *. rewrite IH.
    destruct (last (explicit_codes cs)); [done|].
    destruct (status cw =? 0) eqn:E; simpl; [by destruct (existsb is_write cs)|].
    rewrite E. by destruct (existsb is_write cs).
Qed.

(** Without a [Write] the status is exactly what [WriteHeader] was last
    given, and stays at the zero value when it was never called. *)
Lemma capture_status_no_write (cs : list call) (cw : rwCapture W) :
  existsb is_write cs = false ->
  status (run_calls cs cw).1 = default (status cw) (last (explicit_codes cs))
  /\ size (run_calls cs cw).1 = size cw.
Proof.
  revert cw. induction cs as [|c cs IH]; intros cw Hw; [done|].
  destruct c as [k v|code|b];
    cbn [run_calls explicit_codes existsb is_write orb] in *; [| |done].
  - exact (IH (set_header k v cw) Hw).
  - destruct (IH (rw_WriteHeader code cw) Hw) as [-> ->].
    rewrite last_cons. by destruct (last (explicit_codes cs)).
Qed.
End capture.

(** C4 (amended). For every sequence of calls on a fresh wrapper the wrapped
    writer has received the same calls and the captured byte count is the
    sum, in Go's [int], of the counts its [Write] returned.  When no
    [WriteHeader] was given the code 0, the captured status is the last
    explicitly set code, or 200 when there was a write and no code was ever
    set. *)
Theorem rwCapture_reports {W : Type} `{!http_ResponseWriter W} (w : W) (cs : list call) :
  ResponseWriter (run_calls cs (new_capture w)).1 = (run_calls cs w).1 /\
  size (run_calls cs (new_capture w)).1 = int_wrap (spec_bytes (run_calls cs w).2) /\
  (int_range (spec_bytes (run_calls cs w).2) ->
     size (run_calls cs (new_capture w)).1 = spec_bytes (run_calls cs w).2) /\
  (Forall (fun code => code <> 0) (explicit_codes cs) ->
     forall code, spec_status cs = Some code ->
       status (run_calls cs (new_capture w)).1 = code).
Proof.
  pose proof (capture_passes_calls cs (new_capture w)) as Hpass.
  simpl in Hpass. rewrite Hpass in *. simpl in *.
  assert (size (run_calls cs (new_capture w)).1
          = int_wrap (spec_bytes (run_calls cs (new_capture w)).2)) as Hsize.
  { pose proof (capture_size cs (new_capture w)) as Hsz.
    rewrite (int_wrap_small (size _)) in Hsz
      by (apply capture_size_range; unfold int_range; simpl; lia).
    by rewrite Hsz. }
  split; [done|]. split; [done|]. split.
  - intros Hsum. rewrite Hsize. by apply int_wrap_small.
  - intros Hnz code Hspec. rewrite capture_status by done.
    unfold spec_status in Hspec. simpl.
    destruct (last (explicit_codes cs)); [congruence|].
    destruct (existsb is_write cs); congruence.
Qed.

(** ** The request logger *)

(** What the logger does once the inner handler has returned. *)
Lemma withLogging_done (next : http_Handler) {W : Type} `{!http_ResponseWriter W}
    (r : Request) (w : W) (σ : World) (cw : rwCapture W) (σ1 : World) :
  next (rwCapture W) _ r (new_capture w) (time_Now σ).2 = Done (cw, σ1) ->
  withLogging next W _ r w σ
  = Done (ResponseWriter cw,
          slog_Info "request"
            (Attrs (request_record r (status cw) (size cw)
                      (Duration_Milliseconds
                         (time_Sub (clock σ1 (ticks σ1)) (clock σ (ticks σ))))))
            (time_Now σ1).2).
Proof.
  intros Hnext. unfold withLogging. cbn [time_Now].
  unfold new_capture in Hnext. cbn [time_Now snd] in Hnext. by rewrite Hnext.
Qed.

(** A panic of the inner handler passes through, and nothing is logged. *)
Lemma withLogging_panic (next : http_Handler) {W : Type} `{!http_ResponseWriter W}
    (r : Request) (w : W) (σ : World) (cw : rwCapture W) (σ1 : World) :
  next (rwCapture W) _ r (new_capture w) (time_Now σ).2 = Panic (cw, σ1) ->
  withLogging next W _ r w σ = Panic (ResponseWriter cw, σ1).
Proof.
  intros Hnext. unfold withLogging. cbn [time_Now].
  unfold new_capture in Hnext. cbn [time_Now snd] in Hnext. by rewrite Hnext.
Qed.

(** C5. When the inner handler returns, the logger returns too, and the log
    is what the inner handler left followed by one record: message
    [request] with the attributes method, path, status, bytes, remote and
    dur_ms, in this order.  Status and bytes are the wrapper's final
    counters, and dur_ms is the whole milliseconds between the clock reading
    taken before the inner handler ran and the one taken after it. *)
Theorem withLogging_one_record (next : http_Handler) {W : Type}
    `{!http_ResponseWriter W} (r : Request) (w : W) (σ : World)
    (cw : rwCapture W) (σ1 : World) :
  next (rwCapture W) _ r (new_capture w) (time_Now σ).2 = Done (cw, σ1) ->
  exists σ2,
    withLogging next W _ r w σ = Done (ResponseWriter cw, σ2) /\
    slog_Default σ2 = slog_Default σ1 ++
      [mkRecord "request"
         [ ("method", slog_String (Method r));
           ("path", slog_String (URL_Path r));
           ("status", slog_Int (status cw));
           ("bytes", slog_Int (size cw));
           ("remote", slog_String (RemoteAddr r));
           ("dur_ms", slog_Int (Duration_Milliseconds
                        (time_Sub (clock σ1 (ticks σ1)) (clock σ (ticks σ))))) ]] /\
    globals σ2 = globals σ1 /\
    ticks σ2 = S (ticks σ1).
Proof.
  intros Hnext. rewrite (withLogging_done next r w σ cw σ1 Hnext).
  eexists. split; [reflexivity|]. by cbn.
Qed.

(** C10. Let the inner handler return after a sequence of calls on the
    wrapper that holds no [Write].  Then the captured status is the last
    code given to [WriteHeader], or 0 when there was none: the default 200
    is not applied.  When the sequence holds no [WriteHeader] either, status
    and byte count are both 0 and so are the status and bytes attributes of
    the logger's record. *)
Theorem capture_zero_without_write (next : http_Handler) {W : Type}
    `{!http_ResponseWriter W} (cs : list call) (r : Request) (w : W)
    (σ σ1 : World) :
  next (rwCapture W) _ r (new_capture w) (time_Now σ).2
  = Done ((run_calls cs (new_capture w)).1, σ1) ->
  existsb is_write cs = false ->
  status (run_calls cs (new_capture w)).1 = default 0 (last (explicit_codes cs)) /\
  (existsb is_write_header cs = false ->
     status (run_calls cs (new_capture w)).1 = 0 /\
     size (run_calls cs (new_capture w)).1 = 0 /\
     exists σ2,
       withLogging next W _ r w σ = Done ((run_calls cs w).1, σ2) /\
       slog_Default σ2 = slog_Default σ1 ++
         [request_record r 0 0
            (Duration_Milliseconds
               (time_Sub (clock σ1 (ticks σ1)) (clock σ (ticks σ))))]).
Proof.
  intros Hnext Hw.
  destruct (capture_status_no_write cs (new_capture w) Hw) as [Hst Hsz].
  split; [done|]. intros Hwh.
  assert (explicit_codes cs = []) as Hnone.
  { clear -Hwh. induction cs as [|[]]; simpl in *; try done; auto. }
  rewrite Hnone in Hst. simpl in Hst, Hsz.
  split; [done|split; [done|]].
  rewrite (withLogging_done next r w σ _ σ1 Hnext), Hst, Hsz.
  pose proof (capture_passes_calls cs (new_capture w)) as Hpass.
  simpl in Hpass. rewrite Hpass. simpl.
  eexists. split; [reflexivity|]. done.
Qed.

(** ** Served responses *)

Section served.
Context `{!Collaborators}.

Lemma wrapped_unfold (h : http_Handler) :
  wrapped h = withSecurityHeaders (withLogging h).
Proof. reflexivity. Qed.

Lemma route_ready : ServeMux_Handler main_routes "/ready" = Serve "/ready" (wrapped readyHandler).
Proof. reflexivity. Qed.

Lemma serve_health (r : Request) (σ : World) :
  serve_handler (wrapped healthHandler) r σ
  = Done (mkRecorder 200 json_headers (status_body "healthy") true json_headers,
          logged r 200 20 0 σ).
Proof. reflexivity. Qed.

Lemma serve_ready (r : Request) (σ : World) :
  serve_handler (wrapped readyHandler) r σ
  = if time_Sub (handler_now σ) (startTime (globals σ)) <? readyAfter (globals σ)
    then Done (mkRecorder 503 json_headers (status_body "warming") true json_headers,
               logged r 503 20 1 σ)
    else Done (mkRecorder 200 json_headers (status_body "ready") true json_headers,
               logged r 200 18 1 σ).
Proof.
  rewrite wrapped_unfold.
  unfold serve_handler, withSecurityHeaders, withLogging, readyHandler, handler_now.
  cbn. by destruct (_ <? _).
Qed.

Lemma serve_live (r : Request) (σ : World) :
  serve_handler (wrapped liveHandler) r σ
  = Done (mkRecorder 200 json_headers (status_body "alive") true json_headers,
          logged r 200 18 0 σ).
Proof. reflexivity. Qed.

Lemma serve_home (r : Request) (σ : World) :
  serve_handler (wrapped homeHandler) r σ
  = if negb (String.eqb (URL_Path r) "/")
    then Done (mkRecorder 404 notfound_headers ("404 page not found" +:+ newline)
                 true notfound_headers,
               logged r 404 19 0 σ)
    else if String.eqb (indexHTML (globals σ)) EmptyString
    then Done (mkRecorder 200 html_headers EmptyString false ∅, logged r 0 0 0 σ)
    else Done (mkRecorder 200 html_headers (indexHTML (globals σ)) true html_headers,
               logged r 200 (int_wrap (len (indexHTML (globals σ)))) 0 σ).
Proof.
  rewrite wrapped_unfold.
  unfold serve_handler, withSecurityHeaders, withLogging, homeHandler.
  cbn. destruct (negb _); [reflexivity|].
  unfold io_Copy_bytes. cbn.
  destruct (String.eqb _ _); reflexivity.
Qed.

Lemma serve_version (r : Request) (σ : World) :
  let up := Duration_String (Duration_Truncate
              (time_Sub (handler_now σ) (startTime (globals σ))) time_Second) in
  let body := json_object
                [ ("name", "Harness Demo App"); ("version", version (globals σ));
                  ("commit", commit (globals σ)); ("environment", env (globals σ));
                  ("buildTime", buildTime (globals σ)); ("uptime", up);
                  ("hostname", hostname σ) ] +:+ newline in
  serve_handler (wrapped versionHandler) r σ
  = Done (mkRecorder 200 json_headers body true json_headers,
          logged r 200 (int_wrap (len body)) 1 σ).
Proof. reflexivity. Qed.

Lemma serve_info (r : Request) (σ : World) :
  let up := Duration_String (Duration_Truncate
              (time_Sub (handler_now σ) (startTime (globals σ))) time_Second) in
  let body := json_object
                [ ("name", "Harness Demo App"); ("version", version (globals σ));
                  ("commit", EmptyString); ("environment", env (globals σ));
                  ("buildTime", buildTime (globals σ)); ("uptime", up);
                  ("hostname", hostname σ) ] +:+ newline in
  serve_handler (wrapped infoHandler) r σ
  = Done (mkRecorder 200 json_headers body true json_headers,
          logged r 200 (int_wrap (len body)) 1 σ).
Proof. reflexivity. Qed.

Lemma policy_headers_carry : carries_security_headers policy_headers.
Proof. repeat constructor; by vm_compute. Qed.

Lemma json_headers_carry : carries_security_headers json_headers.
Proof. repeat constructor; by vm_compute. Qed.

Lemma html_headers_carry : carries_security_headers html_headers.
Proof. repeat constructor; by vm_compute. Qed.

Lemma notfound_headers_carry : carries_security_headers notfound_headers.
Proof. repeat constructor; by vm_compute. Qed.

(** *** Routing *)

Lemma ServeMux_best_elem (routes : list (string * http_Handler)) (path : string)
    (best : option (string * http_Handler)) (e : string * http_Handler) :
  ServeMux_best routes path best = Some e -> e ∈ routes \/ best = Some e.
Proof.
  revert best. induction routes as [|e' routes IH]; intros best Hb; simpl in Hb.
  - by right.
  - destruct (IH _ Hb) as [Hin|Heq].
    + left. by right.
    + destruct (pattern_matches _ _ && better _ _); [|by right].
      left. injection Heq as ->. by left.
Qed.

Lemma ServeMux_Handler_registered (routes : list (string * http_Handler))
    (path pat : string) (h : http_Handler) :
  ServeMux_Handler routes path = Serve pat h -> (pat, h) ∈ routes.
Proof.
  unfold ServeMux_Handler. destruct (negb _ && _); [done|].
  destruct (ServeMux_best routes path None) as [[p' h']|] eqn:Hb; [|done].
  intros [= <- <-]. by destruct (ServeMux_best_elem _ _ _ _ Hb).
Qed.

Lemma time_Sub_mono (t1 t2 u : Z) : t1 <= t2 -> time_Sub t1 u <= time_Sub t2 u.
Proof.
  intros Ht. unfold time_Sub, minDuration, maxDuration. simpl.
  repeat match goal with |- context [?a <? ?b] => destruct (Z.ltb_spec a b) end; lia.
Qed.

Lemma time_Sub_exact (t u : Z) :
  minDuration <= t - u <= maxDuration -> time_Sub t u = t - u.
Proof.
  unfold time_Sub, minDuration, maxDuration. simpl. intros Hr.
  repeat match goal with |- context [?a <? ?b] => destruct (Z.ltb_spec a b) end; lia.
Qed.

Lemma served_ready (r : Request) (σ : World) :
  URL_Path r = "/ready" \/ URL_Path r = "/readyz" ->
  ServeMux_ServeHTTP r σ = Some (serve_handler (wrapped readyHandler) r σ).
Proof. unfold ServeMux_ServeHTTP. by intros [-> | ->]. Qed.

(** C1. A request for /ready or /readyz is answered, by status 503 and
    body {"status":"warming"} when the elapsed time is below the threshold,
    and by status 200 and body {"status":"ready"} when it has reached the
    threshold, equality included.  The elapsed time is what the handler
    gets from [time.Since(startTime)]; the package variables are left as
    they were. *)
Theorem ready_probe (r : Request) (σ : World) :
  URL_Path r = "/ready" \/ URL_Path r = "/readyz" ->
  let elapsed := time_Sub (handler_now σ) (startTime (globals σ)) in
  exists rw σ',
    ServeMux_ServeHTTP r σ = Some (Done (rw, σ')) /\
    (elapsed < readyAfter (globals σ) ->
       Code rw = 503 /\ Body rw = status_body "warming") /\
    (readyAfter (globals σ) <= elapsed ->
       Code rw = 200 /\ Body rw = status_body "ready") /\
    globals σ' = globals σ.
Proof.
  intros Hpath elapsed. rewrite (served_ready r σ Hpath), serve_ready.
  fold elapsed. destruct (Z.ltb_spec elapsed (readyAfter (globals σ))).
  - eexists _, _. split; [done|]. repeat split; lia.
  - eexists _, _. split; [done|]. repeat split; lia.
Qed.

(** C7. With the same start time and threshold, a ready answer at one
    clock reading implies a ready answer at every later one. *)
Theorem ready_monotonic (r1 r2 : Request) (σ1 σ2 : World) :
  URL_Path r1 = "/ready" \/ URL_Path r1 = "/readyz" ->
  URL_Path r2 = "/ready" \/ URL_Path r2 = "/readyz" ->
  startTime (globals σ1) = startTime (globals σ2) ->
  readyAfter (globals σ1) = readyAfter (globals σ2) ->
  handler_now σ1 <= handler_now σ2 ->
  exists rw1 σ1' rw2 σ2',
    ServeMux_ServeHTTP r1 σ1 = Some (Done (rw1, σ1')) /\
    ServeMux_ServeHTTP r2 σ2 = Some (Done (rw2, σ2')) /\
    (reports_ready rw1 -> reports_ready rw2).
Proof.
  intros Hp1 Hp2 Hstart Hafter Hnow.
  rewrite (served_ready r1 σ1 Hp1), (served_ready r2 σ2 Hp2), !serve_ready.
  pose proof (time_Sub_mono _ _ (startTime (globals σ1)) Hnow) as Hmono.
  rewrite <- Hstart, <- Hafter.
  destruct (Z.ltb_spec (time_Sub (handler_now σ1) (startTime (globals σ1)))
              (readyAfter (globals σ1)));
    destruct (Z.ltb_spec (time_Sub (handler_now σ2) (startTime (globals σ1)))
                (readyAfter (globals σ1)));
    eexists _, _, _, _; (split; [done|split; [done|]]);
    unfold reports_ready; simpl; intros [? ?]; try done; lia.
Qed.

(** Two requests in a row on a clock that does not run backwards: once the
    probe has answered ready, the next request finds it ready. *)
Lemma ready_stays_ready (r1 r2 : Request) (σ : World) (rw1 : ResponseRecorder)
    (σ1 : World) :
  URL_Path r1 = "/ready" \/ URL_Path r1 = "/readyz" ->
  URL_Path r2 = "/ready" \/ URL_Path r2 = "/readyz" ->
  (forall i j : nat, (i <= j)%nat -> clock σ i <= clock σ j) ->
  ServeMux_ServeHTTP r1 σ = Some (Done (rw1, σ1)) ->
  reports_ready rw1 ->
  exists rw2 σ2,
    ServeMux_ServeHTTP r2 σ1 = Some (Done (rw2, σ2)) /\ reports_ready rw2.
Proof.
  intros Hp1 Hp2 Hclock Hs1 Hr1.
  rewrite (served_ready r1 σ Hp1), serve_ready in Hs1.
  rewrite (served_ready r2 σ1 Hp2), serve_ready.
  destruct (Z.ltb_spec (time_Sub (handler_now σ) (startTime (globals σ)))
              (readyAfter (globals σ))) as [Hlt|Hge].
  - injection Hs1 as <- _. destruct Hr1 as [Hcode _]. discriminate Hcode.
  - injection Hs1 as _ <-. unfold handler_now, logged. cbn [globals clock ticks].
    pose proof (time_Sub_mono _ _ (startTime (globals σ))
                  (Hclock (S (ticks σ)) (S (S (S (1 + ticks σ)))) ltac:(lia)))
      as Hmono.
    unfold handler_now in Hge.
    destruct (Z.ltb_spec
                (time_Sub (clock σ (S (S (S (1 + ticks σ))))) (startTime (globals σ)))
                (readyAfter (globals σ))); [lia|].
    eexists _, _. split; [reflexivity|]. by split.
Qed.

(** C6. /health and /healthz answer 200 with body {"status":"healthy"},
    /live and /livez answer 200 with body {"status":"alive"}, whatever the
    clock, the start time and the threshold are. *)
Theorem health_and_live_probes (r : Request) (σ : World) :
  (URL_Path r = "/health" \/ URL_Path r = "/healthz" ->
     exists rw σ', ServeMux_ServeHTTP r σ = Some (Done (rw, σ')) /\
       Code rw = 200 /\ Body rw = status_body "healthy") /\
  (URL_Path r = "/live" \/ URL_Path r = "/livez" ->
     exists rw σ', ServeMux_ServeHTTP r σ = Some (Done (rw, σ')) /\
       Code rw = 200 /\ Body rw = status_body "alive").
Proof.
  split; intros Hpath.
  - assert (ServeMux_ServeHTTP r σ = Some (serve_handler (wrapped healthHandler) r σ))
      as -> by (unfold ServeMux_ServeHTTP; by destruct Hpath as [-> | ->]).
    rewrite serve_health. by eexists _, _.
  - assert (ServeMux_ServeHTTP r σ = Some (serve_handler (wrapped liveHandler) r σ))
      as -> by (unfold ServeMux_ServeHTTP; by destruct Hpath as [-> | ->]).
    rewrite serve_live. by eexists _, _.
Qed.

(** *** Security headers *)

(** /metrics and /static/ are registered without the middleware stack:
    what is served there is the collaborator's own response. *)
Lemma metrics_route (r : Request) (σ : World) :
  URL_Path r = "/metrics" ->
  ServeMux_ServeHTTP r σ
  = Some (promhttp_Handler ResponseRecorder _ r httptest_NewRecorder σ).
Proof. intros Hpath. unfold ServeMux_ServeHTTP. by rewrite Hpath. Qed.

Lemma static_route (path : string) (h : http_Handler) :
  ServeMux_Handler main_routes path = Serve "/static/" h ->
  h = http_StripPrefix "/static/" staticHandler.
Proof.
  intros Hroute. apply ServeMux_Handler_registered in Hroute.
  unfold main_routes in Hroute.
  repeat (apply elem_of_cons in Hroute as [Hroute|Hroute]);
    try (by apply elem_of_nil in Hroute); by injection Hroute.
Qed.

Lemma set_policy_carries (m : Header) :
  carries_security_headers
    (Header_Set "Content-Security-Policy" CSP
       (Header_Set "Referrer-Policy" "no-referrer"
          (Header_Set "X-Frame-Options" "DENY"
             (Header_Set "X-Content-Type-Options" "nosniff" m)))).
Proof.
  unfold carries_security_headers, security_headers, carries, Header_Set.
  repeat constructor; by simplify_map_eq.
Qed.

Lemma withSecurityHeaders_first (next : http_Handler) (r : Request)
    (rw : ResponseRecorder) (σ : World) :
  exists rw',
    withSecurityHeaders next ResponseRecorder _ r rw σ = next ResponseRecorder _ r rw' σ /\
    carries_security_headers (HeaderMap rw') /\
    Code rw' = Code rw /\ Body rw' = Body rw /\ wroteHeader rw' = wroteHeader rw.
Proof.
  eexists. split; [reflexivity|]. split; [|done]. apply set_policy_carries.
Qed.

Lemma wrapped_handlers_carry (pat : string) (h : http_Handler) (r : Request) (σ : World) :
  (pat, h) ∈ main_routes -> pat ∈ wrapped_patterns ->
  exists rw σ', serve_handler h r σ = Done (rw, σ') /\
    carries_security_headers (Result_Header rw).
Proof.
  intros Hin Hpat. unfold main_routes in Hin.
  repeat (apply elem_of_cons in Hin as [Hin|Hin]); try (by apply elem_of_nil in Hin);
    injection Hin as -> ->.
  - exfalso. unfold wrapped_patterns in Hpat.
    repeat (apply elem_of_cons in Hpat as [Hpat|Hpat]; [discriminate|]).
    by apply elem_of_nil in Hpat.
  - rewrite serve_home. destruct (negb _); [|destruct (String.eqb _ _)];
      eexists _, _; (split; [done|]); unfold Result_Header; simpl;
      auto using notfound_headers_carry, html_headers_carry.
  - rewrite serve_info. eexists _, _. split; [done|]. apply json_headers_carry.
  - rewrite serve_version. eexists _, _. split; [done|]. apply json_headers_carry.
  - rewrite serve_health. eexists _, _. split; [done|]. apply json_headers_carry.
  - rewrite serve_live. eexists _, _. split; [done|]. apply json_headers_carry.
  - rewrite serve_ready. destruct (_ <? _); eexists _, _; (split; [done|]);
      apply json_headers_carry.
  - rewrite serve_health. eexists _, _. split; [done|]. apply json_headers_carry.
  - rewrite serve_live. eexists _, _. split; [done|]. apply json_headers_carry.
  - rewrite serve_ready. destruct (_ <? _); eexists _, _; (split; [done|]);
      apply json_headers_carry.
  - exfalso. unfold wrapped_patterns in Hpat.
    repeat (apply elem_of_cons in Hpat as [Hpat|Hpat]; [discriminate|]).
    by apply elem_of_nil in Hpat.
Qed.

(** C2 (amended). Every response of a route that [main] registers through
    [chain] -- /, /api/info, /version and the six probe paths, the root
    handler's not-found answers included -- carries the four security
    headers with exactly the policy's values; the middleware sets them on
    the response before it calls the handler it wraps, whatever that
    handler and the request are. *)
Theorem security_headers_on_wrapped_routes (r : Request) (σ : World)
    (pat : string) (h : http_Handler) :
  ServeMux_Handler main_routes (URL_Path r) = Serve pat h ->
  pat ∈ wrapped_patterns ->
  (exists rw σ', ServeMux_ServeHTTP r σ = Some (Done (rw, σ')) /\
     carries_security_headers (Result_Header rw)) /\
  (forall (next : http_Handler) (rw0 : ResponseRecorder), exists rw',
     withSecurityHeaders next ResponseRecorder _ r rw0 σ
     = next ResponseRecorder _ r rw' σ /\
     carries_security_headers (HeaderMap rw') /\
     Code rw' = Code rw0 /\ Body rw' = Body rw0 /\ wroteHeader rw' = wroteHeader rw0).
Proof.
  intros Hroute Hpat. split; [|intros; apply withSecurityHeaders_first].
  unfold ServeMux_ServeHTTP. rewrite Hroute.
  destruct (wrapped_handlers_carry pat h r σ) as (rw & σ' & -> & Hc);
    [by apply (ServeMux_Handler_registered _ (URL_Path r))|done|].
  by eexists _, _.
Qed.

(** *** The info endpoints *)

(** C8 (amended). /version and /api/info answer 200 with a JSON object of
    the same seven members: name, version, commit, environment, buildTime,
    uptime and hostname.  In the /version answer commit is the build's
    commit; in the /api/info answer the member is present too and always
    holds the empty string.  The uptime is computed from the clock reading
    of this very request, and the package variables are left as they
    were. *)
Theorem info_and_version (r : Request) (σ : World) :
  let up := Duration_String (Duration_Truncate
              (time_Sub (handler_now σ) (startTime (globals σ))) time_Second) in
  (URL_Path r = "/version" ->
     exists rw σ', ServeMux_ServeHTTP r σ = Some (Done (rw, σ')) /\
       Code rw = 200 /\
       Body rw = json_object
                   [ ("name", "Harness Demo App"); ("version", version (globals σ));
                     ("commit", commit (globals σ)); ("environment", env (globals σ));
                     ("buildTime", buildTime (globals σ)); ("uptime", up);
                     ("hostname", hostname σ) ] +:+ newline /\
       globals σ' = globals σ) /\
  (URL_Path r = "/api/info" ->
     exists rw σ', ServeMux_ServeHTTP r σ = Some (Done (rw, σ')) /\
       Code rw = 200 /\
       Body rw = json_object
                   [ ("name", "Harness Demo App"); ("version", version (globals σ));
                     ("commit", EmptyString); ("environment", env (globals σ));
                     ("buildTime", buildTime (globals σ)); ("uptime", up);
                     ("hostname", hostname σ) ] +:+ newline /\
       globals σ' = globals σ).
Proof.
  intros up. split; intros Hpath.
  - assert (ServeMux_ServeHTTP r σ = Some (serve_handler (wrapped versionHandler) r σ))
      as -> by (unfold ServeMux_ServeHTTP; by rewrite Hpath).
    rewrite serve_version. by eexists _, _.
  - assert (ServeMux_ServeHTTP r σ = Some (serve_handler (wrapped infoHandler) r σ))
      as -> by (unfold ServeMux_ServeHTTP; by rewrite Hpath).
    rewrite serve_info. by eexists _, _.
Qed.

(** *** The landing page *)

Lemma root_route (path : string) (h : http_Handler) :
  ServeMux_Handler main_routes path = Serve "/" h -> h = wrapped homeHandler.
Proof.
  intros Hroute. apply ServeMux_Handler_registered in Hroute.
  unfold main_routes in Hroute.
  repeat (apply elem_of_cons in Hroute as [Hroute|Hroute]);
    try (by apply elem_of_nil in Hroute); by injection Hroute.
Qed.

(** C9. The path / is routed to the root handler, and every request the
    mux routes there is answered by the handler itself, which returns: a
    request for / gets status 200, the embedded page as body and an HTML
    content type; any other path gets net/http's not-found answer, status
    404 with its plain-text body. *)
Theorem home_or_not_found (r : Request) (σ : World) (h : http_Handler) :
  ServeMux_Handler main_routes "/" = Serve "/" (wrapped homeHandler) /\
  (ServeMux_Handler main_routes (URL_Path r) = Serve "/" h ->
   exists rw σ',
     ServeMux_ServeHTTP r σ = Some (Done (rw, σ')) /\
     (URL_Path r = "/" ->
        Code rw = 200 /\ Body rw = indexHTML (globals σ) /\
        Header_Get "Content-Type" (Result_Header rw) = "text/html; charset=utf-8") /\
     (URL_Path r <> "/" ->
        Code rw = 404 /\ Body rw = "404 page not found" +:+ newline /\
        Header_Get "Content-Type" (Result_Header rw) = "text/plain; charset=utf-8")).
Proof.
  split; [reflexivity|]. intros Hroute.
  unfold ServeMux_ServeHTTP. rewrite Hroute, (root_route _ _ Hroute), serve_home.
  destruct (String.eqb_spec (URL_Path r) "/") as [Hroot|Hother]; simpl.
  - destruct (String.eqb_spec (indexHTML (globals σ)) EmptyString) as [Hempty|_];
      eexists _, _; (split; [done|]); split; try done; intros _; simpl;
      rewrite ?Hempty; by repeat split.
  - eexists _, _. split; [done|]. split; [done|]. intros _. by repeat split.
Qed.
End served.

(** * The model at concrete inputs *)

Section examples.
#[local] Existing Instance demo_collaborators.

Lemma ready_probe_witness :
  (URL_Path (get "/readyz") = "/ready" \/ URL_Path (get "/readyz") = "/readyz") /\
  (exists rw σ',
     ServeMux_ServeHTTP (get "/readyz") warming_world = Some (Done (rw, σ')) /\
     Code rw = 503 /\ Body rw = status_body "warming") /\
  (exists rw σ',
     ServeMux_ServeHTTP (get "/readyz") ready_world = Some (Done (rw, σ')) /\
     Code rw = 200 /\ Body rw = status_body "ready").
Proof.
  split; [by right|]. split.
  - destruct (ready_probe (get "/readyz") warming_world (or_intror eq_refl))
      as (rw & σ' & Hs & Hwarm & _).
    exists rw, σ'. split; [exact Hs|]. apply Hwarm. reflexivity.
  - destruct (ready_probe (get "/readyz") ready_world (or_intror eq_refl))
      as (rw & σ' & Hs & _ & Hready & _).
    exists rw, σ'. split; [exact Hs|]. apply Hready. discriminate.
Defined.

(** C2, as stated, fails: /metrics is registered without the middleware,
    so its response has none of the policy's headers. *)
Lemma metrics_lacks_security_headers :
  ~ (forall (C : Collaborators) (r : Request) (σ : World)
            (o : result (ResponseRecorder * World)),
       @ServeMux_ServeHTTP C r σ = Some o ->
       carries_security_headers (Result_Header (response o))).
Proof.
  intros Hall.
  specialize (Hall demo_collaborators (get "/metrics") ready_world _ eq_refl).
  apply Forall_cons in Hall as [Hfirst _]. by vm_compute in Hfirst.
Qed.

Lemma security_headers_witness :
  ServeMux_Handler main_routes (URL_Path (get "/nope")) = Serve "/" (wrapped homeHandler) /\
  "/" ∈ wrapped_patterns /\
  exists rw σ',
    ServeMux_ServeHTTP (get "/nope") ready_world = Some (Done (rw, σ')) /\
    Code rw = 404 /\
    carries_security_headers (Result_Header rw).
Proof.
  split; [reflexivity|]. split; [by left|].
  destruct (security_headers_on_wrapped_routes (get "/nope") ready_world "/"
              (wrapped homeHandler) eq_refl (list_elem_of_here _ _))
    as [(rw & σ' & Hs & Hc) _].
  exists rw, σ'. split; [exact Hs|]. split; [|exact Hc].
  by injection Hs as <- _.
Defined.

(** C4, as stated, fails: after [WriteHeader(0)] a [Write] puts the
    default 200 in place of the code that was explicitly set. *)
Lemma capture_forgets_zero_code :
  ~ (forall (cs : list call) (code : Z),
       spec_status cs = Some code ->
       status (run_calls cs (new_capture tt)).1 = code).
Proof.
  intros Hall.
  specialize (Hall [CallWriteHeader 0; CallWrite "x"] 0 eq_refl).
  by vm_compute in Hall.
Qed.

Lemma rwCapture_reports_witness :
  int_range (spec_bytes (run_calls pipe_calls (mkPipe EmptyString)).2) /\
  Forall (fun code => code <> 0) (explicit_codes pipe_calls) /\
  spec_status pipe_calls = Some 404 /\
  size (run_calls pipe_calls (new_capture (mkPipe EmptyString))).1 = 7 /\
  status (run_calls pipe_calls (new_capture (mkPipe EmptyString))).1 = 404.
Proof.
  assert (Forall (fun code => code <> 0) (explicit_codes pipe_calls)) as Hnz
    by (repeat constructor; discriminate).
  assert (int_range (spec_bytes (run_calls pipe_calls (mkPipe EmptyString)).2)) as Hr
    by (split; [discriminate|reflexivity]).
  destruct (rwCapture_reports (mkPipe EmptyString) pipe_calls)
    as (_ & _ & Hsize & Hstatus).
  split; [exact Hr|]. split; [exact Hnz|]. split; [reflexivity|]. split.
  - exact (Hsize Hr).
  - exact (Hstatus Hnz 404 eq_refl).
Defined.

Lemma withLogging_one_record_witness :
  healthHandler (rwCapture unit) _ (get "/health") (new_capture tt)
    (time_Now ready_world).2
  = Done (mkCapture tt 200 20, (time_Now ready_world).2) /\
  exists σ2,
    withLogging healthHandler unit _ (get "/health") tt ready_world = Done (tt, σ2) /\
    slog_Default σ2 =
      [mkRecord "request"
         [ ("method", slog_String "GET"); ("path", slog_String "/health");
           ("status", slog_Int 200); ("bytes", slog_Int 20);
           ("remote", slog_String "192.0.2.1:4711"); ("dur_ms", slog_Int 0) ]].
Proof.
  assert (healthHandler (rwCapture unit) _ (get "/health") (new_capture tt)
            (time_Now ready_world).2
          = Done (mkCapture tt 200 20, (time_Now ready_world).2)) as Hinner
    by reflexivity.
  split; [exact Hinner|].
  destruct (withLogging_one_record healthHandler (get "/health") tt ready_world
              (mkCapture tt 200 20) (time_Now ready_world).2 Hinner)
    as (σ2 & Hrun & Hlog & _).
  exists σ2. split; [exact Hrun|exact Hlog].
Defined.

Lemma health_and_live_witness :
  (URL_Path (get "/healthz") = "/health" \/ URL_Path (get "/healthz") = "/healthz") /\
  (URL_Path (get "/live") = "/live" \/ URL_Path (get "/live") = "/livez") /\
  (exists rw σ', ServeMux_ServeHTTP (get "/healthz") warming_world = Some (Done (rw, σ')) /\
     Code rw = 200 /\ Body rw = status_body "healthy") /\
  (exists rw σ', ServeMux_ServeHTTP (get "/live") warming_world = Some (Done (rw, σ')) /\
     Code rw = 200 /\ Body rw = status_body "alive").
Proof.
  split; [by right|]. split; [by left|]. split.
  - exact (proj1 (health_and_live_probes (get "/healthz") warming_world)
             (or_intror eq_refl)).
  - exact (proj2 (health_and_live_probes (get "/live") warming_world)
             (or_introl eq_refl)).
Defined.

Lemma ready_monotonic_witness :
  (URL_Path (get "/ready") = "/ready" \/ URL_Path (get "/ready") = "/readyz") /\
  (URL_Path (get "/readyz") = "/ready" \/ URL_Path (get "/readyz") = "/readyz") /\
  startTime (globals ready_world) = startTime (globals later_world) /\
  readyAfter (globals ready_world) = readyAfter (globals later_world) /\
  handler_now ready_world <= handler_now later_world /\
  exists rw1 σ1' rw2 σ2',
    ServeMux_ServeHTTP (get "/ready") ready_world = Some (Done (rw1, σ1')) /\
    ServeMux_ServeHTTP (get "/readyz") later_world = Some (Done (rw2, σ2')) /\
    reports_ready rw1 /\ reports_ready rw2.
Proof.
  assert (handler_now ready_world <= handler_now later_world) as Hle by discriminate.
  split; [by left|]. split; [by right|]. split; [reflexivity|].
  split; [reflexivity|]. split; [exact Hle|].
  destruct (ready_monotonic (get "/ready") (get "/readyz") ready_world later_world
              (or_introl eq_refl) (or_intror eq_refl) eq_refl eq_refl Hle)
    as (rw1 & σ1' & rw2 & σ2' & Hs1 & Hs2 & Hmono).
  assert (reports_ready rw1) as Hr1.
  { injection Hs1 as <- _. split; reflexivity. }
  exists rw1, σ1', rw2, σ2'.
  split; [exact Hs1|]. split; [exact Hs2|]. split; [exact Hr1|exact (Hmono Hr1)].
Defined.

(** C8, as stated, fails: the body of /api/info has a commit member. *)
Lemma info_mentions_commit :
  ~ (forall (C : Collaborators) (r : Request) (σ : World)
            (o : result (ResponseRecorder * World)),
       URL_Path r = "/api/info" ->
       @ServeMux_ServeHTTP C r σ = Some o ->
       mentions_member "commit" (Body (response o)) = false).
Proof.
  intros Hall.
  specialize (Hall demo_collaborators (get "/api/info") ready_world _ eq_refl eq_refl).
  by vm_compute in Hall.
Qed.

Lemma info_and_version_witness :
  URL_Path (get "/version") = "/version" /\
  URL_Path (get "/api/info") = "/api/info" /\
  (exists rw σ',
     ServeMux_ServeHTTP (get "/version") uptime_world = Some (Done (rw, σ')) /\
     Code rw = 200 /\
     Body rw = json_object
                 [ ("name", "Harness Demo App"); ("version", "1.0.0");
                   ("commit", "unknown"); ("environment", "development");
                   ("buildTime", EmptyString); ("uptime", "1m15s");
                   ("hostname", "demo-host") ] +:+ newline) /\
  (exists rw σ',
     ServeMux_ServeHTTP (get "/api/info") uptime_world = Some (Done (rw, σ')) /\
     Code rw = 200 /\
     Body rw = json_object
                 [ ("name", "Harness Demo App"); ("version", "1.0.0");
                   ("commit", EmptyString); ("environment", "development");
                   ("buildTime", EmptyString); ("uptime", "1m15s");
                   ("hostname", "demo-host") ] +:+ newline).
Proof.
  split; [reflexivity|]. split; [reflexivity|]. split.
  - destruct (proj1 (info_and_version (get "/version") uptime_world) eq_refl)
      as (rw & σ' & Hs & Hcode & Hbody & _).
    exists rw, σ'. split; [exact Hs|]. split; [exact Hcode|exact Hbody].
  - destruct (proj2 (info_and_version (get "/api/info") uptime_world) eq_refl)
      as (rw & σ' & Hs & Hcode & Hbody & _).
    exists rw, σ'. split; [exact Hs|]. split; [exact Hcode|exact Hbody].
Defined.

Lemma home_or_not_found_witness :
  ServeMux_Handler main_routes (URL_Path (get "/")) = Serve "/" (wrapped homeHandler) /\
  ServeMux_Handler main_routes (URL_Path (get "/nope")) = Serve "/" (wrapped homeHandler) /\
  URL_Path (get "/") = "/" /\
  URL_Path (get "/nope") <> "/" /\
  (exists rw σ',
     ServeMux_ServeHTTP (get "/") ready_world = Some (Done (rw, σ')) /\
     Code rw = 200 /\ Body rw = "<html>Harness Demo App</html>" /\
     Header_Get "Content-Type" (Result_Header rw) = "text/html; charset=utf-8") /\
  (exists rw σ',
     ServeMux_ServeHTTP (get "/nope") ready_world = Some (Done (rw, σ')) /\
     Code rw = 404 /\ Body rw = "404 page not found" +:+ newline /\
     Header_Get "Content-Type" (Result_Header rw) = "text/plain; charset=utf-8").
Proof.
  assert (URL_Path (get "/nope") <> "/") as Hne by discriminate.
  split; [reflexivity|]. split; [reflexivity|]. split; [reflexivity|].
  split; [exact Hne|]. split.
  - destruct (proj2 (home_or_not_found (get "/") ready_world (wrapped homeHandler))
                eq_refl) as (rw & σ' & Hs & Hroot & _).
    exists rw, σ'. split; [exact Hs|]. exact (Hroot eq_refl).
  - destruct (proj2 (home_or_not_found (get "/nope") ready_world (wrapped homeHandler))
                eq_refl) as (rw & σ' & Hs & _ & Hother).
    exists rw, σ'. split; [exact Hs|]. exact (Hother Hne).
Defined.

Lemma capture_zero_without_write_witness :
  homeHandler (rwCapture ResponseRecorder) _ (get "/")
    (new_capture httptest_NewRecorder) (time_Now empty_page_world).2
  = Done ((run_calls html_calls (new_capture httptest_NewRecorder)).1,
          (time_Now empty_page_world).2) /\
  existsb is_write html_calls = false /\
  existsb is_write_header html_calls = false /\
  status (run_calls html_calls (new_capture httptest_NewRecorder)).1 = 0 /\
  size (run_calls html_calls (new_capture httptest_NewRecorder)).1 = 0 /\
  exists σ2,
    withLogging homeHandler ResponseRecorder _ (get "/")
      httptest_NewRecorder empty_page_world
    = Done (mkRecorder 200
              (Header_Set "Content-Type" "text/html; charset=utf-8" ∅)
              EmptyString false ∅, σ2) /\
    slog_Default σ2 =
      [mkRecord "request"
         [ ("method", slog_String "GET"); ("path", slog_String "/");
           ("status", slog_Int 0); ("bytes", slog_Int 0);
           ("remote", slog_String "192.0.2.1:4711"); ("dur_ms", slog_Int 0) ]].
Proof.
  assert (homeHandler (rwCapture ResponseRecorder) _ (get "/")
            (new_capture httptest_NewRecorder) (time_Now empty_page_world).2
          = Done ((run_calls html_calls (new_capture httptest_NewRecorder)).1,
                  (time_Now empty_page_world).2)) as Hinner by reflexivity.
  split; [exact Hinner|]. split; [reflexivity|]. split; [reflexivity|].
  destruct (capture_zero_without_write homeHandler html_calls (get "/")
              httptest_NewRecorder empty_page_world _ Hinner eq_refl)
    as [_ Hzero].
  destruct (Hzero eq_refl) as (Hst & Hsz & σ2 & Hrun & Hlog).
  split; [exact Hst|]. split; [exact Hsz|].
  exists σ2. split; [exact Hrun|exact Hlog].
Defined.
End examples.

(** * Further properties of the program *)

(** ** The environment *)

Lemma os_Getenv_insert (environ : gmap string string) (k v : string) :
  os_Getenv (<[k := v]> environ) k = v.
Proof. unfold os_Getenv. by rewrite lookup_insert_eq. Qed.

Lemma nonempty_eqb (v : string) : v <> EmptyString -> String.eqb v EmptyString = false.
Proof. intros Hv. by apply String.eqb_neq. Qed.

(** X1. [getenv] never gives the empty string when the default is not
    empty; a variable set to a non-empty value is read back; a variable that
    is unset and one that is set to the empty string both give the default;
    and setting another variable changes nothing. *)
Theorem getenv_default (environ : gmap string string) (k def : string) :
  (def <> EmptyString -> getenv environ k def <> EmptyString) /\
  (forall v, v <> EmptyString -> getenv (<[k := v]> environ) k def = v) /\
  getenv (delete k environ) k def = def /\
  getenv (<[k := EmptyString]> environ) k def = def /\
  (forall k' v, k' <> k -> getenv (<[k' := v]> environ) k def = getenv environ k def).
Proof.
  unfold getenv. repeat split.
  - intros Hdef. destruct (String.eqb_spec (os_Getenv environ k) EmptyString); simpl; done.
  - intros v Hv. by rewrite os_Getenv_insert, (nonempty_eqb v Hv).
  - unfold os_Getenv. by rewrite lookup_delete_eq.
  - by rewrite os_Getenv_insert.
  - intros k' v Hk. unfold os_Getenv. by rewrite lookup_insert_ne.
Qed.

(** ** chain, continued *)

(** X3. Chaining over a concatenated list is chaining in two steps: the
    second list is wrapped around the handler first, the first list around
    the result. *)
Theorem chain_app {H : Type} (h : H) (mws1 mws2 : list (H -> H)) :
  chain h (mws1 ++ mws2) = chain (chain h mws2) mws1.
Proof. by rewrite !chain_foldr, foldr_app. Qed.

(** ** The readiness threshold *)

(** Saturation of [time.Sub] does not move the comparison with a threshold
    above the smallest Duration. *)
Lemma time_Sub_lt_iff (t u ra : Z) :
  minDuration < ra <= maxDuration ->
  (time_Sub t u <? ra) = (t - u <? ra).
Proof.
  intros Hra. unfold time_Sub. cbv zeta.
  destruct (Z.ltb_spec (t - u) minDuration);
    [|destruct (Z.ltb_spec maxDuration (t - u))];
    repeat match goal with |- context [?a <? ?b] => destruct (Z.ltb_spec a b) end;
    unfold minDuration, maxDuration in *; try reflexivity; lia.
Qed.

Section more.
Context `{!Collaborators}.

(** X9. With a threshold above the smallest Duration, the ready probe
    answers 503 exactly when the plain difference between the handler's
    clock reading and the start time is below the threshold, and 200 exactly
    when it is not: the saturation of [time.Since] never changes the
    answer. *)
Theorem ready_threshold_exact (r : Request) (σ : World) :
  URL_Path r = "/ready" \/ URL_Path r = "/readyz" ->
  minDuration < readyAfter (globals σ) <= maxDuration ->
  exists rw σ',
    ServeMux_ServeHTTP r σ = Some (Done (rw, σ')) /\
    (Code rw = 503 <->
       handler_now σ - startTime (globals σ) < readyAfter (globals σ)) /\
    (Code rw = 200 <->
       readyAfter (globals σ) <= handler_now σ - startTime (globals σ)).
Proof.
  intros Hpath Hra. rewrite (served_ready r σ Hpath), serve_ready.
  rewrite (time_Sub_lt_iff _ _ _ Hra).
  destruct (Z.ltb_spec (handler_now σ - startTime (globals σ))
              (readyAfter (globals σ)));
    eexists _, _; (split; [reflexivity|]); simpl; split; split;
    try done; try lia.
Qed.

(** X2. A process with the package variables as initialised (threshold two
    seconds, start time the instant of initialisation) answers the ready
    probe with 503 and the warming body while the handler's clock reading
    is less than two seconds after the start, and with 200 and the ready
    body from two seconds on, whatever the environment holds. *)
Theorem fresh_process_ready_window (environ : gmap string string)
    (page : string) (t0 : Z) (r : Request) (σ : World) :
  URL_Path r = "/ready" \/ URL_Path r = "/readyz" ->
  globals σ = init_globals environ page t0 ->
  exists rw σ',
    ServeMux_ServeHTTP r σ = Some (Done (rw, σ')) /\
    (handler_now σ - t0 < 2000000000 ->
       Code rw = 503 /\ Body rw = status_body "warming") /\
    (2000000000 <= handler_now σ - t0 ->
       Code rw = 200 /\ Body rw = status_body "ready").
Proof.
  intros Hpath Hinit. rewrite (served_ready r σ Hpath), serve_ready, Hinit.
  cbn [init_globals startTime readyAfter].
  rewrite time_Sub_lt_iff by (unfold minDuration, maxDuration, time_Second; lia).
  change (2 * time_Second) with 2000000000.
  destruct (Z.ltb_spec (handler_now σ - t0) 2000000000);
    eexists _, _; (split; [reflexivity|]); simpl; split; intros; try done; lia.
Qed.

(** ** Panics *)

(** X4. A panic of the wrapped handler passes through the whole stack: the
    stack panics as well, with the writer and the world the handler left,
    so that the logger has added no record.  The handler had been given the
    writer with the policy headers set, behind the logger's wrapper. *)
Theorem wrapped_panic_passes (next : http_Handler) {W : Type}
    `{!http_ResponseWriter W} (r : Request) (w : W) (σ : World)
    (cw : rwCapture W) (σ1 : World) :
  next (rwCapture W) _ r (new_capture (with_policy w)) (time_Now σ).2
  = Panic (cw, σ1) ->
  wrapped next W _ r w σ = Panic (ResponseWriter cw, σ1).
Proof.
  intros Hnext. rewrite wrapped_unfold. unfold withSecurityHeaders.
  fold (with_policy w). by apply withLogging_panic.
Qed.

(** ** Routes and their responses *)

Ltac route_cases Hin :=
  unfold main_routes in Hin;
  repeat (apply elem_of_cons in Hin as [Hin|Hin]);
  try (by apply elem_of_nil in Hin);
  injection Hin as -> ->.

Ltac not_wrapped Hpat :=
  exfalso; unfold wrapped_patterns in Hpat;
  repeat (apply elem_of_cons in Hpat as [Hpat|Hpat]; [discriminate|]);
  by apply elem_of_nil in Hpat.

Lemma served_health (r : Request) (σ : World) :
  URL_Path r = "/health" \/ URL_Path r = "/healthz" ->
  ServeMux_ServeHTTP r σ = Some (serve_handler (wrapped healthHandler) r σ).
Proof. unfold ServeMux_ServeHTTP. by intros [-> | ->]. Qed.

Lemma served_live (r : Request) (σ : World) :
  URL_Path r = "/live" \/ URL_Path r = "/livez" ->
  ServeMux_ServeHTTP r σ = Some (serve_handler (wrapped liveHandler) r σ).
Proof. unfold ServeMux_ServeHTTP. by intros [-> | ->]. Qed.

(** X5. On every route registered through [chain] the logger's record
    agrees with the response: its status is the response's status code and
    its byte count the length of the response body (as a Go [int]).  The
    one exception, left out here, is the landing page of a build whose
    embedded page is empty. *)
Theorem log_matches_response (r : Request) (σ : World) (pat : string)
    (h : http_Handler) :
  ServeMux_Handler main_routes (URL_Path r) = Serve pat h ->
  pat ∈ wrapped_patterns ->
  (URL_Path r = "/" -> indexHTML (globals σ) <> EmptyString) ->
  exists rw σ' ms,
    ServeMux_ServeHTTP r σ = Some (Done (rw, σ')) /\
    slog_Default σ' = slog_Default σ ++
      [request_record r (Code rw) (int_wrap (len (Body rw))) ms].
Proof.
  intros Hroute Hpat Hpage. unfold ServeMux_ServeHTTP. rewrite Hroute.
  apply ServeMux_Handler_registered in Hroute. route_cases Hroute.
  - not_wrapped Hpat.
  - rewrite serve_home.
    destruct (String.eqb_spec (URL_Path r) "/") as [Hroot|_]; simpl.
    + destruct (String.eqb_spec (indexHTML (globals σ)) EmptyString) as [Hempty|_];
        [by destruct (Hpage Hroot)|].
      by eexists _, _, _.
    + by eexists _, _, _.
  - rewrite serve_info. by eexists _, _, _.
  - rewrite serve_version. by eexists _, _, _.
  - rewrite serve_health. by eexists _, _, _.
  - rewrite serve_live. by eexists _, _, _.
  - rewrite serve_ready. destruct (_ <? _); by eexists _, _, _.
  - rewrite serve_health. by eexists _, _, _.
  - rewrite serve_live. by eexists _, _, _.
  - rewrite serve_ready. destruct (_ <? _); by eexists _, _, _.
  - not_wrapped Hpat.
Qed.

(** X6. Every response of a route registered through [chain] names its
    content type itself, so that nothing is left to content sniffing:
    [application/json] on the probe and info routes, [text/html] on the
    landing page and [text/plain] on the root handler's not-found answer. *)
Theorem content_type_by_route (r : Request) (σ : World) (pat : string)
    (h : http_Handler) :
  ServeMux_Handler main_routes (URL_Path r) = Serve pat h ->
  pat ∈ wrapped_patterns ->
  exists rw σ',
    ServeMux_ServeHTTP r σ = Some (Done (rw, σ')) /\
    Header_Get "Content-Type" (Result_Header rw)
    = if negb (String.eqb pat "/") then "application/json"
      else if String.eqb (URL_Path r) "/" then "text/html; charset=utf-8"
      else "text/plain; charset=utf-8".
Proof.
  intros Hroute Hpat. unfold ServeMux_ServeHTTP. rewrite Hroute.
  apply ServeMux_Handler_registered in Hroute. route_cases Hroute.
  - not_wrapped Hpat.
  - rewrite serve_home.
    destruct (String.eqb (URL_Path r) "/"); simpl;
      [destruct (String.eqb (indexHTML (globals σ)) EmptyString)|];
      by eexists _, _.
  - rewrite serve_info. by eexists _, _.
  - rewrite serve_version. by eexists _, _.
  - rewrite serve_health. by eexists _, _.
  - rewrite serve_live. by eexists _, _.
  - rewrite serve_ready. destruct (_ <? _); by eexists _, _.
  - rewrite serve_health. by eexists _, _.
  - rewrite serve_live. by eexists _, _.
  - rewrite serve_ready. destruct (_ <? _); by eexists _, _.
  - not_wrapped Hpat.
Qed.

(** X7. The two spellings of a probe are served alike: in the same world a
    request for /health and one for /healthz get the same response, and so
    do /live and /livez, and /ready and /readyz, whatever the methods and
    remote addresses of the two requests are. *)
Theorem probe_aliases_agree (r1 r2 : Request) (σ : World) :
  (URL_Path r1 = "/health" /\ URL_Path r2 = "/healthz") \/
  (URL_Path r1 = "/live" /\ URL_Path r2 = "/livez") \/
  (URL_Path r1 = "/ready" /\ URL_Path r2 = "/readyz") ->
  response <$> ServeMux_ServeHTTP r1 σ = response <$> ServeMux_ServeHTTP r2 σ.
Proof.
  intros [[H1 H2]|[[H1 H2]|[H1 H2]]].
  - rewrite (served_health r1 σ (or_introl H1)), (served_health r2 σ (or_intror H2)).
    by rewrite !serve_health.
  - rewrite (served_live r1 σ (or_introl H1)), (served_live r2 σ (or_intror H2)).
    by rewrite !serve_live.
  - rewrite (served_ready r1 σ (or_introl H1)), (served_ready r2 σ (or_intror H2)).
    rewrite !serve_ready. by destruct (_ <? _).
Qed.

(** X8. No handler of a route registered through [chain] looks at the
    method or the remote address: two requests for the same path get the
    same response in the same world. *)
Theorem response_ignores_method (r1 r2 : Request) (σ : World) (pat : string)
    (h : http_Handler) :
  URL_Path r2 = URL_Path r1 ->
  ServeMux_Handler main_routes (URL_Path r1) = Serve pat h ->
  pat ∈ wrapped_patterns ->
  response <$> ServeMux_ServeHTTP r1 σ = response <$> ServeMux_ServeHTTP r2 σ.
Proof.
  intros Hsame Hroute Hpat. unfold ServeMux_ServeHTTP. rewrite Hsame, Hroute.
  apply ServeMux_Handler_registered in Hroute. route_cases Hroute.
  - not_wrapped Hpat.
  - rewrite !serve_home, Hsame. destruct (negb _); [done|].
    by destruct (String.eqb _ _).
  - by rewrite !serve_info.
  - by rewrite !serve_version.
  - by rewrite !serve_health.
  - by rewrite !serve_live.
  - rewrite !serve_ready. by destruct (_ <? _).
  - by rewrite !serve_health.
  - by rewrite !serve_live.
  - rewrite !serve_ready. by destruct (_ <? _).
  - not_wrapped Hpat.
Qed.

(** ** The routing table *)








Lemma length_append (s t : string) :
  String.length (s +:+ t) = (String.length s + String.length t)%nat.
Proof.
  induction s as [|c s IH]; [done|].
  change (S (String.length (s +:+ t)) = S (String.length s + String.length t)).
  by rewrite IH.
Qed.



(** ** The logged duration *)

Lemma milliseconds_bounds (d : Z) :
  0 <= d ->
  0 <= Duration_Milliseconds d /\
  Duration_Milliseconds d * 1000000 <= d < (Duration_Milliseconds d + 1) * 1000000.
Proof.
  intros Hd. unfold Duration_Milliseconds.
  rewrite Z.quot_div_nonneg by lia.
  pose proof (Z.div_mod d 1000000 ltac:(lia)).
  pose proof (Z.mod_pos_bound d 1000000 ltac:(lia)).
  pose proof (Z.div_pos d 1000000 Hd ltac:(lia)). lia.
Qed.

Lemma time_Sub_nonneg (t u : Z) : u <= t -> 0 <= time_Sub t u.
Proof.
  intros Hle. unfold time_Sub, minDuration, maxDuration. cbv zeta.
  destruct (Z.ltb_spec (t - u) (- 2 ^ 63)); [lia|].
  destruct (Z.ltb_spec (2 ^ 63 - 1) (t - u)); lia.
Qed.

(** X12. When the clock has not run backwards while the inner handler ran,
    the dur_ms attribute of the logger's record is not negative and is the
    elapsed time in whole milliseconds, rounded down: anything below one
    millisecond is logged as 0. *)
Theorem logged_duration_rounds_down (next : http_Handler) {W : Type}
    `{!http_ResponseWriter W} (r : Request) (w : W) (σ : World)
    (cw : rwCapture W) (σ1 : World) :
  next (rwCapture W) _ r (new_capture w) (time_Now σ).2 = Done (cw, σ1) ->
  clock σ (ticks σ) <= clock σ1 (ticks σ1) ->
  exists σ2 ms,
    withLogging next W _ r w σ = Done (ResponseWriter cw, σ2) /\
    last (slog_Default σ2) = Some (request_record r (status cw) (size cw) ms) /\
    0 <= ms /\
    ms * 1000000 <= time_Sub (clock σ1 (ticks σ1)) (clock σ (ticks σ))
                 < (ms + 1) * 1000000.
Proof.
  intros Hnext Hclock. rewrite (withLogging_done next r w σ cw σ1 Hnext).
  eexists _, _. split; [reflexivity|]. split.
  - cbn [slog_Info slog_Default]. by rewrite last_snoc.
  - apply milliseconds_bounds. by apply time_Sub_nonneg.
Qed.

(** ** Calls on the recorded response *)

Lemma run_calls_app {W : Type} `{!http_ResponseWriter W} (cs1 cs2 : list call) (w : W) :
  (run_calls (cs1 ++ cs2) w).1 = (run_calls cs2 (run_calls cs1 w).1).1.
Proof.
  revert w. induction cs1 as [|c cs1 IH]; intros w; [done|].
  destruct c as [k v|code|b]; cbn [app run_calls].
  - apply IH.
  - apply IH.
  - destruct (rw_Write b w) as [w1 [n err]]. specialize (IH w1).
    destruct (run_calls (cs1 ++ cs2) w1), (run_calls cs1 w1). exact IH.
Qed.

(** Once the status is on the wire, nothing changes it or the headers that
    went with it. *)
Lemma recorder_frozen (cs : list call) (rw : ResponseRecorder) :
  wroteHeader rw = true ->
  wroteHeader (run_calls cs rw).1 = true /\
  Code (run_calls cs rw).1 = Code rw /\
  snapHeader (run_calls cs rw).1 = snapHeader rw.
Proof.
  revert rw. induction cs as [|c cs IH]; intros rw Hw; [done|].
  destruct c as [k v|code|b]; cbn [run_calls].
  - exact (IH (set_header k v rw) Hw).
  - cbn [rw_WriteHeader Recorder_ResponseWriter]. unfold Recorder_WriteHeader.
    rewrite Hw. by apply IH.
  - cbn [rw_Write Recorder_ResponseWriter]. unfold Recorder_Write, Recorder_writeHeader.
    rewrite Hw. cbn [Code HeaderMap Body wroteHeader snapHeader].
    specialize (IH (mkRecorder (Code rw) (HeaderMap rw) (Body rw +:+ b) true
                      (snapHeader rw)) eq_refl).
    rewrite Hw.
    destruct (run_calls cs _) as [rw' ns]. exact IH.
Qed.

Lemma recorder_first_status (cs : list call) (rw : ResponseRecorder) :
  wroteHeader rw = false ->
  Code (run_calls cs rw).1 = default (Code rw) (first_status cs) /\
  wroteHeader (run_calls cs rw).1 = bool_decide (is_Some (first_status cs)).
Proof.
  revert rw. induction cs as [|c cs IH]; intros rw Hw; [done|].
  destruct c as [k v|code|b]; cbn [run_calls first_status].
  - exact (IH (set_header k v rw) Hw).
  - cbn [rw_WriteHeader Recorder_ResponseWriter]. unfold Recorder_WriteHeader.
    rewrite Hw.
    destruct (recorder_frozen cs (mkRecorder code (HeaderMap rw) (Body rw) true
                                    (HeaderMap rw)) eq_refl) as (-> & -> & _).
    by rewrite bool_decide_eq_true_2.
  - cbn [rw_Write Recorder_ResponseWriter]. unfold Recorder_Write, Recorder_writeHeader.
    rewrite Hw. unfold Recorder_WriteHeader.
    cbn [Code HeaderMap Body wroteHeader snapHeader].
    match goal with |- context [run_calls cs ?x] =>
      destruct (recorder_frozen cs x eq_refl) as (Hw' & Hc' & _);
      destruct (run_calls cs x) as [rw' ns] end.
    cbn [fst] in *. rewrite Hw', Hc'. by rewrite bool_decide_eq_true_2.
Qed.

Lemma len_append (a b : string) : len (a +:+ b) = len a + len b.
Proof. unfold len. rewrite length_append. lia. Qed.

Lemma recorder_body (cs : list call) (rw : ResponseRecorder) :
  len (Body (run_calls cs rw).1) = len (Body rw) + spec_bytes (run_calls cs rw).2.
Proof.
  revert rw. induction cs as [|c cs IH]; intros rw.
  - unfold spec_bytes. simpl. lia.
  - destruct c as [k v|code|b]; cbn [run_calls].
    + exact (IH (set_header k v rw)).
    + rewrite (IH (rw_WriteHeader code rw)). f_equal.
      cbn [rw_WriteHeader Recorder_ResponseWriter]. unfold Recorder_WriteHeader.
      by destruct (wroteHeader rw).
    + cbn [rw_Write Recorder_ResponseWriter]. unfold Recorder_Write.
      match goal with |- context [run_calls cs ?x] =>
        specialize (IH x); destruct (run_calls cs x) as [rw' ns] end.
      cbn [fst snd Body] in *. rewrite IH, len_append.
      unfold spec_bytes. cbn [foldr].
      assert (Body (Recorder_writeHeader b rw) = Body rw) as ->.
      { unfold Recorder_writeHeader, Recorder_WriteHeader.
        by destruct (wroteHeader rw). }
      lia.
Qed.

(** X17. Whatever calls a handler makes, the byte count the logger's wrapper
    ends with is the number of bytes the calls added to the body of the
    recorded response (as a Go [int]). *)
Theorem captured_size_is_body_growth (cs : list call) (rw : ResponseRecorder) :
  size (run_calls cs (new_capture rw)).1
  = int_wrap (len (Body (ResponseWriter (run_calls cs (new_capture rw)).1))
              - len (Body rw)).
Proof.
  pose proof (capture_passes_calls cs (new_capture rw)) as Hpass.
  pose proof (capture_size cs (new_capture rw)) as Hsize.
  pose proof (capture_size_range cs (new_capture rw)) as Hrange.
  pose proof (recorder_body cs rw) as Hbody.
  cbn [new_capture ResponseWriter size] in *.
  rewrite Hpass in Hbody. cbn [fst snd] in Hbody.
  rewrite (int_wrap_small (size _)) in Hsize
    by (apply Hrange; unfold int_range; lia).
  rewrite Hsize. f_equal. lia.
Qed.




(** X16. A [WriteHeader] that comes after the status is on the wire is
    taken up by the logger's wrapper and ignored by the response: the
    wrapper's status becomes the late code, while the response keeps the
    status code it had. *)
Theorem late_WriteHeader_only_logged (cs : list call) (code : Z) :
  is_Some (first_status cs) ->
  status (run_calls (cs ++ [CallWriteHeader code])
            (new_capture httptest_NewRecorder)).1 = code /\
  Code (ResponseWriter (run_calls (cs ++ [CallWriteHeader code])
                          (new_capture httptest_NewRecorder)).1)
  = Code (ResponseWriter (run_calls cs (new_capture httptest_NewRecorder)).1).
Proof.
  intros Hsent. rewrite !run_calls_app. cbn [run_calls fst]. split; [done|].
  cbn [rw_WriteHeader rwCapture_ResponseWriter rwCapture_WriteHeader ResponseWriter].
  pose proof (capture_passes_calls cs (new_capture httptest_NewRecorder)) as Hpass.
  cbn [new_capture ResponseWriter] in Hpass.
  assert (ResponseWriter (run_calls cs (new_capture httptest_NewRecorder)).1
          = (run_calls cs httptest_NewRecorder).1) as -> by by rewrite Hpass.
  destruct (recorder_first_status cs httptest_NewRecorder eq_refl) as [_ Hwrote].
  rewrite bool_decide_eq_true_2 in Hwrote by done.
  cbn [rw_WriteHeader Recorder_ResponseWriter]. unfold Recorder_WriteHeader.
  by rewrite Hwrote.
Qed.

(** ** The policy headers, continued *)

Lemma with_policy_headers (rw : ResponseRecorder) :
  HeaderMap (with_policy rw)
  = Header_Set "Content-Security-Policy" CSP
      (Header_Set "Referrer-Policy" "no-referrer"
         (Header_Set "X-Frame-Options" "DENY"
            (Header_Set "X-Content-Type-Options" "nosniff" (HeaderMap rw)))).
Proof. reflexivity. Qed.

(** X13. What [withSecurityHeaders] does to a response before it calls the
    next handler: each of the four policy headers holds exactly the policy's
    value, whatever it held before; every other header is as it was; and
    doing it twice is the same as doing it once. *)
Theorem policy_replaces_and_keeps (rw : ResponseRecorder) :
  (forall (next : http_Handler) (r : Request) (σ : World),
     withSecurityHeaders next ResponseRecorder _ r rw σ
     = next ResponseRecorder _ r (with_policy rw) σ) /\
  (forall k v, (k, v) ∈ security_headers ->
     HeaderMap (with_policy rw) !! k = Some [v]) /\
  (forall k, k ∉ security_headers.*1 ->
     HeaderMap (with_policy rw) !! k = HeaderMap rw !! k) /\
  with_policy (with_policy rw) = with_policy rw.
Proof.
  split; [done|]. split; [|split].
  - intros k v Hin. pose proof (set_policy_carries (HeaderMap rw)) as Hc.
    rewrite <- with_policy_headers in Hc.
    unfold carries_security_headers in Hc. rewrite Forall_forall in Hc.
    exact (Hc (k, v) Hin).
  - intros k Hk. rewrite with_policy_headers. unfold Header_Set.
    rewrite !lookup_insert_ne; [done|..]; intros <-; apply Hk;
      unfold security_headers; set_solver.
  - assert (HeaderMap (with_policy (with_policy rw)) = HeaderMap (with_policy rw))
      as Hmap.
    { rewrite (with_policy_headers (with_policy rw)), with_policy_headers.
      unfold Header_Set. apply map_eq. intros k.
      rewrite !lookup_insert. by repeat case_decide. }
    destruct rw as [code hm body wrote snap].
    unfold with_policy, set_header in *. cbn in *. by rewrite Hmap.
Qed.


(** ** The reported uptime *)

(** X18. The uptime the info endpoints report is the elapsed time rounded
    toward zero to whole seconds: a multiple of a second that is never
    farther from zero than the elapsed time and less than a second away
    from it. *)
Theorem uptime_whole_seconds (σ : World) :
  let elapsed := time_Sub (clock σ (ticks σ)) (startTime (globals σ)) in
  let d := Duration_Truncate elapsed time_Second in
  (uptime_string σ).1 = Duration_String d /\
  (exists q, d = q * time_Second) /\
  (0 <= elapsed -> 0 <= d <= elapsed /\ elapsed < d + time_Second) /\
  (elapsed <= 0 -> elapsed <= d <= 0 /\ d - time_Second < elapsed).
Proof.
  intros elapsed d. split; [reflexivity|].
  unfold d, Duration_Truncate, time_Second. cbn [Z.leb Z.compare].
  pose proof (Z.quot_rem' elapsed 1000000000) as Hqr.
  split; [|split].
  - exists (elapsed ÷ 1000000000). lia.
  - intros Hpos.
    pose proof (Z.rem_bound_pos_pos elapsed 1000000000 ltac:(lia) Hpos). lia.
  - intros Hneg.
    pose proof (Z.rem_bound_pos_neg elapsed 1000000000 ltac:(lia) Hneg). lia.
Qed.
End more.

(** * The further properties at concrete inputs *)

Section more_examples.
#[local] Existing Instance demo_collaborators.

Lemma getenv_default_witness :
  "1.0.0" <> EmptyString /\
  getenv demo_environ "APP_VERSION" "1.0.0" <> EmptyString /\
  "staging" <> EmptyString /\
  getenv (<["APP_ENV" := "staging"]> ∅) "APP_ENV" "development" = "staging" /\
  "PORT" <> "APP_ENV" /\
  getenv (<["PORT" := "9090"]> demo_environ) "APP_ENV" "development"
  = getenv demo_environ "APP_ENV" "development".
Proof.
  assert ("1.0.0" <> EmptyString) as Hdef by discriminate.
  assert ("staging" <> EmptyString) as Hval by discriminate.
  assert ("PORT" <> "APP_ENV") as Hkey by discriminate.
  split; [exact Hdef|]. split.
  - exact (proj1 (getenv_default demo_environ "APP_VERSION" "1.0.0") Hdef).
  - split; [exact Hval|]. split.
    + exact (proj1 (proj2 (getenv_default ∅ "APP_ENV" "development"))
               "staging" Hval).
    + split; [exact Hkey|].
      exact (proj2 (proj2 (proj2 (proj2
               (getenv_default demo_environ "APP_ENV" "development"))))
               "PORT" "9090" Hkey).
Defined.

Lemma fresh_process_ready_window_witness :
  (URL_Path (get "/ready") = "/ready" \/ URL_Path (get "/ready") = "/readyz") /\
  globals (fresh_world time_Second)
  = init_globals demo_environ "<html>Harness Demo App</html>" 0 /\
  handler_now (fresh_world time_Second) - 0 < 2000000000 /\
  2000000000 <= handler_now (fresh_world (3 * time_Second)) - 0 /\
  (exists rw σ',
     ServeMux_ServeHTTP (get "/ready") (fresh_world time_Second)
     = Some (Done (rw, σ')) /\
     Code rw = 503 /\ Body rw = status_body "warming") /\
  (exists rw σ',
     ServeMux_ServeHTTP (get "/ready") (fresh_world (3 * time_Second))
     = Some (Done (rw, σ')) /\
     Code rw = 200 /\ Body rw = status_body "ready").
Proof.
  assert (handler_now (fresh_world time_Second) - 0 < 2000000000) as Hearly
    by reflexivity.
  assert (2000000000 <= handler_now (fresh_world (3 * time_Second)) - 0) as Hlate
    by discriminate.
  split; [by left|]. split; [reflexivity|]. split; [exact Hearly|].
  split; [exact Hlate|]. split.
  - destruct (fresh_process_ready_window demo_environ "<html>Harness Demo App</html>"
                0 (get "/ready") (fresh_world time_Second) (or_introl eq_refl) eq_refl)
      as (rw & σ' & Hs & Hwarm & _).
    exists rw, σ'. split; [exact Hs|exact (Hwarm Hearly)].
  - destruct (fresh_process_ready_window demo_environ "<html>Harness Demo App</html>"
                0 (get "/ready") (fresh_world (3 * time_Second))
                (or_introl eq_refl) eq_refl)
      as (rw & σ' & Hs & _ & Hready).
    exists rw, σ'. split; [exact Hs|exact (Hready Hlate)].
Defined.

Lemma wrapped_panic_passes_witness :
  panicking (rwCapture unit) _ (get "/") (new_capture (with_policy tt))
    (time_Now ready_world).2
  = Panic (mkCapture tt 200 7, (time_Now ready_world).2) /\
  wrapped panicking unit _ (get "/") tt ready_world
  = Panic (tt, (time_Now ready_world).2) /\
  slog_Default (time_Now ready_world).2 = [].
Proof.
  assert (panicking (rwCapture unit) _ (get "/") (new_capture (with_policy tt))
            (time_Now ready_world).2
          = Panic (mkCapture tt 200 7, (time_Now ready_world).2)) as Hinner
    by reflexivity.
  split; [exact Hinner|]. split; [|reflexivity].
  exact (wrapped_panic_passes panicking (get "/") tt ready_world _ _ Hinner).
Defined.

Lemma log_matches_response_witness :
  ServeMux_Handler main_routes (URL_Path (get "/version"))
  = Serve "/version" (wrapped versionHandler) /\
  "/version" ∈ wrapped_patterns /\
  (URL_Path (get "/version") = "/" ->
     indexHTML (globals uptime_world) <> EmptyString) /\
  exists rw σ' ms,
    ServeMux_ServeHTTP (get "/version") uptime_world = Some (Done (rw, σ')) /\
    Code rw = 200 /\
    slog_Default σ' = [request_record (get "/version") 200 148 ms].
Proof.
  assert ("/version" ∈ wrapped_patterns) as Hin by (do 2 right; left).
  assert (URL_Path (get "/version") = "/" ->
          indexHTML (globals uptime_world) <> EmptyString) as Hpage by discriminate.
  split; [reflexivity|]. split; [exact Hin|]. split; [exact Hpage|].
  destruct (log_matches_response (get "/version") uptime_world "/version"
              (wrapped versionHandler) eq_refl Hin Hpage)
    as (rw & σ' & ms & Hs & Hlog).
  exists rw, σ', ms. split; [exact Hs|].
  injection Hs as <- <-. split; [reflexivity|exact Hlog].
Defined.

Lemma content_type_by_route_witness :
  ServeMux_Handler main_routes (URL_Path (get "/nope"))
  = Serve "/" (wrapped homeHandler) /\
  "/" ∈ wrapped_patterns /\
  exists rw σ',
    ServeMux_ServeHTTP (get "/nope") ready_world = Some (Done (rw, σ')) /\
    Header_Get "Content-Type" (Result_Header rw) = "text/plain; charset=utf-8".
Proof.
  assert ("/" ∈ wrapped_patterns) as Hin by left.
  split; [reflexivity|]. split; [exact Hin|].
  exact (content_type_by_route (get "/nope") ready_world "/" (wrapped homeHandler)
           eq_refl Hin).
Defined.

Lemma probe_aliases_agree_witness :
  (URL_Path (get "/ready") = "/ready" /\ URL_Path (post "/readyz") = "/readyz") /\
  response <$> ServeMux_ServeHTTP (get "/ready") warming_world
  = response <$> ServeMux_ServeHTTP (post "/readyz") warming_world.
Proof.
  split; [by split|].
  exact (probe_aliases_agree (get "/ready") (post "/readyz") warming_world
           (or_intror (or_intror (conj eq_refl eq_refl)))).
Defined.

Lemma response_ignores_method_witness :
  URL_Path (post "/") = URL_Path (get "/") /\
  ServeMux_Handler main_routes (URL_Path (get "/")) = Serve "/" (wrapped homeHandler) /\
  "/" ∈ wrapped_patterns /\
  response <$> ServeMux_ServeHTTP (get "/") ready_world
  = response <$> ServeMux_ServeHTTP (post "/") ready_world.
Proof.
  assert ("/" ∈ wrapped_patterns) as Hin by left.
  split; [reflexivity|]. split; [reflexivity|]. split; [exact Hin|].
  exact (response_ignores_method (get "/") (post "/") ready_world "/"
           (wrapped homeHandler) eq_refl eq_refl Hin).
Defined.

Lemma ready_threshold_exact_witness :
  (URL_Path (get "/ready") = "/ready" \/ URL_Path (get "/ready") = "/readyz") /\
  minDuration < readyAfter (globals ready_world) <= maxDuration /\
  readyAfter (globals ready_world)
  <= handler_now ready_world - startTime (globals ready_world) /\
  exists rw σ',
    ServeMux_ServeHTTP (get "/ready") ready_world = Some (Done (rw, σ')) /\
    Code rw = 200.
Proof.
  assert (minDuration < readyAfter (globals ready_world) <= maxDuration) as Hra
    by (split; [reflexivity|discriminate]).
  assert (readyAfter (globals ready_world)
          <= handler_now ready_world - startTime (globals ready_world)) as Hge
    by discriminate.
  split; [by left|]. split; [exact Hra|]. split; [exact Hge|].
  destruct (ready_threshold_exact (get "/ready") ready_world (or_introl eq_refl) Hra)
    as (rw & σ' & Hs & _ & Hready).
  exists rw, σ'. split; [exact Hs|exact (proj2 Hready Hge)].
Defined.



Lemma logged_duration_rounds_down_witness :
  healthHandler (rwCapture unit) _ (get "/health") (new_capture tt)
    (time_Now ready_world).2
  = Done (mkCapture tt 200 20, (time_Now ready_world).2) /\
  clock ready_world (ticks ready_world)
  <= clock (time_Now ready_world).2 (ticks (time_Now ready_world).2) /\
  exists σ2 ms,
    withLogging healthHandler unit _ (get "/health") tt ready_world = Done (tt, σ2) /\
    last (slog_Default σ2) = Some (request_record (get "/health") 200 20 ms) /\
    0 <= ms /\ ms * 1000000 <= 1000 < (ms + 1) * 1000000.
Proof.
  assert (healthHandler (rwCapture unit) _ (get "/health") (new_capture tt)
            (time_Now ready_world).2
          = Done (mkCapture tt 200 20, (time_Now ready_world).2)) as Hinner
    by reflexivity.
  assert (clock ready_world (ticks ready_world)
          <= clock (time_Now ready_world).2 (ticks (time_Now ready_world).2)) as Hclock
    by discriminate.
  split; [exact Hinner|]. split; [exact Hclock|].
  exact (logged_duration_rounds_down healthHandler (get "/health") tt ready_world
           (mkCapture tt 200 20) (time_Now ready_world).2 Hinner Hclock).
Defined.

Lemma policy_replaces_and_keeps_witness :
  ("X-Frame-Options", "DENY") ∈ security_headers /\
  ("Content-Type" ∉ security_headers.*1) /\
  HeaderMap (with_policy httptest_NewRecorder) !! "X-Frame-Options" = Some ["DENY"] /\
  HeaderMap (with_policy httptest_NewRecorder) !! "Content-Type"
  = HeaderMap httptest_NewRecorder !! "Content-Type".
Proof.
  assert (("X-Frame-Options", "DENY") ∈ security_headers) as Hin by (right; left).
  assert ("Content-Type" ∉ security_headers.*1) as Hout.
  { intros Hk. cbn in Hk.
    repeat (apply elem_of_cons in Hk as [Hk|Hk]; [discriminate Hk|]).
    by apply elem_of_nil in Hk. }
  destruct (policy_replaces_and_keeps httptest_NewRecorder) as (_ & Hset & Hkeep & _).
  split; [exact Hin|]. split; [exact Hout|]. split.
  - exact (Hset _ _ Hin).
  - exact (Hkeep _ Hout).
Defined.


Lemma late_WriteHeader_only_logged_witness :
  is_Some (first_status [CallWrite "done"]) /\
  status (run_calls ([CallWrite "done"] ++ [CallWriteHeader 404])
            (new_capture httptest_NewRecorder)).1 = 404 /\
  Code (ResponseWriter (run_calls ([CallWrite "done"] ++ [CallWriteHeader 404])
                          (new_capture httptest_NewRecorder)).1) = 200.
Proof.
  assert (is_Some (first_status [CallWrite "done"])) as Hsent by (by eexists).
  destruct (late_WriteHeader_only_logged [CallWrite "done"] 404 Hsent)
    as [Hstatus Hcode].
  split; [exact Hsent|]. split; [exact Hstatus|].
  rewrite Hcode. reflexivity.
Defined.

Lemma uptime_whole_seconds_witness :
  0 <= time_Sub (clock uptime_world (ticks uptime_world))
         (startTime (globals uptime_world)) /\
  (uptime_string uptime_world).1 = "1m15s" /\
  Duration_Truncate
    (time_Sub (clock uptime_world (ticks uptime_world))
       (startTime (globals uptime_world))) time_Second
  <= time_Sub (clock uptime_world (ticks uptime_world))
       (startTime (globals uptime_world)).
Proof.
  assert (0 <= time_Sub (clock uptime_world (ticks uptime_world))
                 (startTime (globals uptime_world))) as Hpos by discriminate.
  destruct (uptime_whole_seconds uptime_world) as (Hstr & _ & Hbounds & _).
  split; [exact Hpos|]. split.
  - rewrite Hstr. reflexivity.
  - exact (proj2 (proj1 (Hbounds Hpos))).
Defined.
End more_examples.
